(** * Capture / analysis / persistence pipeline of clem-analyse

    A shallow embedding of the parts of the Python sources that the
    specification of the concurrent pipeline talks about:

    - [realtime_analysis.py]: the mutex-guarded frame hand-off, the rolling
      trend windows and the aggregate health score of
      [RealtimeFacialAnalyzer];
    - [health_analyzer.py]: the history windows and the trend classifier of
      [HealthAnalyzer];
    - [data_storage.py]: the background save worker of [DataStorage];
    - [complete_health_analyzer.py]: the countdown capture loop of
      [CompleteHealthAnalyzer._run_facial_analysis].

    Python floats are modelled by exact rationals ([Q]); a Python exception
    is the [None] of the option monad; the collaborators (detector, feature
    extractor, clock, keyboard, random generator, storage back end) appear
    as explicit inputs. *)

From Stdlib Require Import QArith Qround Qminmax Qabs Lqa ZArith Lia.
From stdpp Require Import base option gmap strings list.

Open Scope Q_scope.

(** ** Python values and built-ins *)

Module Py.

(** The values found in a [health_data] dictionary: numbers (int, float),
    strings (labels and notes) and nested dictionaries (for instance
    [estimated_stress_level]). *)
#[warnings="-register-all"]
Inductive value : Type :=
| VNum (q : Q)
| VStr (s : string)
| VDict (d : list (string * value)).

(** Arithmetic on a value that is not a number raises [TypeError]. *)
Definition as_num (v : value) : option Q :=
  match v with
  | VNum q => Some q
  | _ => None
  end.

(** [d.get(k, default)] on a nested dictionary. *)
Fixpoint dict_get (k : string) (default : value) (d : list (string * value)) : value :=
  match d with
  | [] => default
  | (k', v) :: d' => if String.eqb k k' then v else dict_get k default d'
  end.

(** [v.get(k, default)]: only dictionaries have the method. *)
Definition get_attr (k : string) (default : value) (v : value) : option value :=
  match v with
  | VDict d => Some (dict_get k default d)
  | _ => None
  end.

(** [v == "s"]. *)
Definition eq_str (v : value) (s : string) : bool :=
  match v with
  | VStr s' => String.eqb s' s
  | _ => false
  end.

(** Rounding of a rational to the nearest integer, halves to the even
    neighbour, as [round] does. *)
Definition round_half_even (x : Q) : Z :=
  let f := Qfloor x in
  match Qcompare (x - inject_Z f) (1 # 2) with
  | Lt => f
  | Gt => (f + 1)%Z
  | Eq => if Z.even f then f else (f + 1)%Z
  end.

(** [round(x, 1)]. *)
Definition round1 (x : Q) : Q := inject_Z (round_half_even (x * 10)) / 10.

(** [int(x)]: truncation towards zero. *)
Definition int (x : Q) : Z := Z.quot (Qnum x) (Zpos (Qden x)).

(** [l[-n:]] for a positive [n]. *)
Definition slice_last {A} (n : nat) (l : list A) : list A :=
  drop (length l - n) l.

(** [l.pop(0)] keeps the tail. *)
Definition pop0 {A} (l : list A) : list A := tail l.

(** [max(l, key=key)]: the first element whose key is maximal; the
    candidate is replaced only by a strictly larger key. [None] stands
    for the [ValueError] on an empty sequence. *)
Definition max_by {A} (key : A → Z) (l : list A) : option A :=
  match l with
  | [] => None
  | x :: l' =>
      Some (fold_left (λ best y, if (key best <? key y)%Z then y else best) l' x)
  end.

(** The truth value of a list: non-empty. *)
Definition truthy {A} (l : list A) : bool :=
  match l with
  | [] => false
  | _ :: _ => true
  end.

(** [x < y] on numbers. *)
Definition Qltb (x y : Q) : bool := negb (Qle_bool y x).

(** [sum(l)], [np.mean(l)] and the square of [np.std(l)] (population
    variance) of a non-empty list. *)
Definition sum (l : list Q) : Q := fold_left Qplus l 0.
Definition mean (l : list Q) : Q := sum l / inject_Z (Z.of_nat (length l)).
Definition variance (l : list Q) : Q :=
  let m := mean l in mean ((λ x, (x - m) * (x - m)) <$> l).

End Py.

Import Py.

(** The five ordered status bands shared by both analyzers. *)
Definition status_band (health_score : Q) : string :=
  if Qle_bool 8.5 health_score then "Excellent"
  else if Qle_bool 7.0 health_score then "Good"
  else if Qle_bool 5.5 health_score then "Fair"
  else if Qle_bool 4.0 health_score then "Concerning"
  else "Poor".

(** ** realtime_analysis.py *)

Module RealtimeFacialAnalyzer.

(** *** The shared frame slot ([self.current_frame] under [self.lock]) *)

Section FrameSlot.
Context {Frame : Type}.

(** [self.current_frame], [None] until the display loop has read a
    frame. *)
Definition slot : Type := option Frame.

Definition empty_slot : slot := None.

(** [_display_loop]: [with self.lock: self.current_frame = frame]. *)
Definition publish (frame : Frame) (s : slot) : slot := Some frame.

(** [_processing_worker]: under the lock, [None] sends the worker to
    sleep and retry, otherwise it leaves with
    [self.current_frame.copy()]; the slot is not changed. *)
Definition takeLatest (s : slot) : option Frame := s.

(** The critical sections of the two threads are serialised by the
    lock: an execution is a sequence of them. *)
Inductive slot_op : Type :=
| Publish (frame : Frame)
| TakeLatest.

Definition slot_step (st : slot * list (option Frame)) (op : slot_op)
  : slot * list (option Frame) :=
  match op with
  | Publish frame => (publish frame st.1, st.2)
  | TakeLatest => (st.1, st.2 ++ [takeLatest st.1])
  end.

(** Runs a sequence of critical sections from the initial slot; the
    second component lists what each [takeLatest] returned. *)
Definition slot_run (ops : list slot_op) : slot * list (option Frame) :=
  fold_left slot_step ops (empty_slot, []).
End FrameSlot.

(** *** Health tracking *)

(** [fatigue_map.get(fatigue, 0.5)]; a dictionary is not hashable and
    cannot be looked up. *)
Definition fatigue_map_get (fatigue : value) : option Q :=
  match fatigue with
  | VStr s =>
      Some (if String.eqb s "Minimal" then 0.1
            else if String.eqb s "Mild" then 0.3
            else if String.eqb s "Moderate" then 0.6
            else if String.eqb s "Severe" then 0.9
            else 0.5)
  | VNum _ => Some 0.5
  | VDict _ => None
  end.

(** The keys of [self.health_trends], in insertion order. *)
Definition trend_keys : list string :=
  ["facial_symmetry"; "eye_fatigue"; "skin_texture"; "eyes_level_symmetry"].

Definition initial_trends : gmap string (list Q) :=
  list_to_map ((λ k, (k, [])) <$> trend_keys).

(** [self.health_trends[key].append(value)] followed by the cut to the
    last 30 values. *)
Definition trend_append (value : Q) (window : list Q) : list Q :=
  let window := window ++ [value] in
  if (30 <? length window)%nat then slice_last 30 window else window.

(** One turn of the loop over [self.health_trends.keys()]. *)
Definition update_trend (health_data : gmap string value)
    (trends : gmap string (list Q)) (key : string) : option (gmap string (list Q)) :=
  match health_data !! key with
  | None => Some trends
  | Some v =>
      value ← (if String.eqb key "eye_fatigue"
               then VNum <$> fatigue_map_get v else Some v);
      match value with
      | VNum q => Some (alter (trend_append q) key trends)
      | _ => Some trends
      end
  end.

Definition update_trends (health_data : gmap string value)
    (trends : gmap string (list Q)) : option (gmap string (list Q)) :=
  foldl (λ acc key, trends ← acc; update_trend health_data trends key)
        (Some trends) trend_keys.

(** The accumulation of [_calculate_health_score]: [score] and
    [components] after the five [if key in health] blocks. *)
Definition add_symmetry (health : gmap string value) (acc : Q * Z) : option (Q * Z) :=
  match health !! "facial_symmetry" with
  | None => Some acc
  | Some v =>
      symmetry ← as_num v;
      let symmetry_score := Qmin 10 (symmetry * 11.1) in
      Some (acc.1 + symmetry_score, (acc.2 + 1)%Z)
  end.

Definition add_eye_symmetry (health : gmap string value) (acc : Q * Z) : option (Q * Z) :=
  match health !! "eyes_level_symmetry" with
  | None => Some acc
  | Some v =>
      eye_sym ← as_num v;
      let eye_sym_score := Qmin 10 (eye_sym * 12.5) in
      Some (acc.1 + eye_sym_score, (acc.2 + 1)%Z)
  end.

Definition add_fatigue (health : gmap string value) (acc : Q * Z) : option (Q * Z) :=
  match health !! "eye_fatigue" with
  | None => Some acc
  | Some fatigue =>
      fatigue_val ← fatigue_map_get fatigue;
      let fatigue_score := (1 - fatigue_val) * 10 in
      Some (acc.1 + fatigue_score, (acc.2 + 1)%Z)
  end.

Definition add_texture (health : gmap string value) (acc : Q * Z) : option (Q * Z) :=
  match health !! "skin_texture" with
  | None => Some acc
  | Some v =>
      texture ← as_num v;
      let norm_texture := Qmax 0 (Qmin 1 ((40 - texture) / 35)) in
      let texture_score := norm_texture * 10 in
      Some (acc.1 + texture_score, (acc.2 + 1)%Z)
  end.

Definition add_harmony (health : gmap string value) (acc : Q * Z) : option (Q * Z) :=
  match health !! "golden_ratio_harmony" with
  | None => Some acc
  | Some v =>
      harmony ← as_num v;
      let harmony_score := harmony * 10 in
      Some (acc.1 + harmony_score, (acc.2 + 1)%Z)
  end.

Definition score_components (health : gmap string value) : option (Q * Z) :=
  acc ← add_symmetry health (0, 0%Z);
  acc ← add_eye_symmetry health acc;
  acc ← add_fatigue health acc;
  acc ← add_texture health acc;
  add_harmony health acc.

(** The tracked state of the analyzer that the score depends on. *)
Record tracking : Type := Tracking {
  health_history : list (gmap string value);
  health_trends : gmap string (list Q);
  overall_health_score : Q;
  health_status : string
}.

Definition initial_tracking : tracking :=
  Tracking [] initial_trends 0 "Analyzing...".

(** [_calculate_health_score]: nothing changes on an empty history;
    otherwise the last entry is scored. *)
Definition _calculate_health_score (t : tracking) : option tracking :=
  match last (health_history t) with
  | None => Some t
  | Some health =>
      acc ← score_components health;
      let score := acc.1 in
      let components := acc.2 in
      Some (Tracking (health_history t) (health_trends t)
              (round1 (score / inject_Z (Z.max 1 components)))
              (health_status t))
  end.

(** [_generate_health_status], the status label (the recommendation
    list is not part of the tracked state here). *)
Definition _generate_health_status (t : tracking) : tracking :=
  match health_history t with
  | [] => Tracking (health_history t) (health_trends t)
            (overall_health_score t) "Analyzing..."
  | _ => Tracking (health_history t) (health_trends t)
            (overall_health_score t) (status_band (overall_health_score t))
  end.

(** [_update_health_tracking]. *)
Definition _update_health_tracking (health_data : gmap string value)
    (t : tracking) : option tracking :=
  let history := health_history t ++ [health_data] in
  let history :=
    if (100 <? length history)%nat then slice_last 100 history else history in
  trends ← update_trends health_data (health_trends t);
  t ← _calculate_health_score
        (Tracking history trends (overall_health_score t) (health_status t));
  Some (_generate_health_status t).

End RealtimeFacialAnalyzer.

(** ** health_analyzer.py *)

Module HealthAnalyzer.

(** A [skin_data_point]: the optional ['texture'] and ['note'] entries. *)
Record skin_point : Type := SkinPoint {
  texture : option value;
  note : option value
}.

(** [self.history]: a dictionary with four fixed keys, each a list. *)
Record history : Type := History {
  facial_symmetry : list value;
  eye_fatigue : list Q;
  facial_fullness : list value;
  skin_data : list skin_point
}.

Definition initial_history : history := History [] [] [] [].

Definition history_max_size : nat := 30.

(** [window.append(x)] followed by [window.pop(0)] when the length
    exceeds [self.history_max_size]. *)
Definition history_append {A} (x : A) (window : list A) : list A :=
  let window := window ++ [x] in
  if (history_max_size <? length window)%nat then pop0 window else window.

(** The numeric proxy of the fatigue label. *)
Definition fatigue_value (v : value) : Q :=
  if eq_str v "Low" then 0.2
  else if eq_str v "Moderate" then 0.6
  else 1.0.

(** [_update_history]. *)
Definition _update_history (health_data : gmap string value) (h : history) : history :=
  let symmetry :=
    match health_data !! "facial_symmetry" with
    | Some v => history_append v (facial_symmetry h)
    | None => facial_symmetry h
    end in
  let fatigue :=
    match health_data !! "eye_fatigue" with
    | Some v => history_append (fatigue_value v) (eye_fatigue h)
    | None => eye_fatigue h
    end in
  let fullness :=
    match health_data !! "facial_fullness" with
    | Some v => history_append v (facial_fullness h)
    | None => facial_fullness h
    end in
  let skin_data_point :=
    SkinPoint (health_data !! "skin_texture") (health_data !! "skin_tone_note") in
  let skin :=
    match texture skin_data_point, note skin_data_point with
    | None, None => skin_data h
    | _, _ => history_append skin_data_point (skin_data h)
    end in
  History symmetry fatigue fullness skin.

(** The eye-fatigue block of [_analyze_trends]: the label stored under
    ['eye_fatigue_trend'], if any. *)
Definition eye_fatigue_trend (window : list Q) : option string :=
  if (10 <=? length window)%nat then
    let recent_fatigue := mean (slice_last 5 window) in
    let earlier_fatigue := mean (take 5 window) in
    let fatigue_change := recent_fatigue - earlier_fatigue in
    Some (if Qltb 0.2 fatigue_change then "Increasing (consider rest)"
          else if Qltb fatigue_change (-0.2) then "Decreasing (improving)"
          else "Stable")
  else None.

(** The symmetry block: [np.std(window) > 0.1], decided on the variance
    ([std > 0.1] exactly when [std * std > 0.01]); a window holding a
    value that is not a number makes [np.std] raise. *)
Definition symmetry_stability (window : list value) : option (option string) :=
  if (10 <=? length window)%nat then
    nums ← mapM as_num window;
    Some (Some (if Qltb 0.01 (variance nums) then "Variable" else "Stable"))
  else Some None.

Definition set_label (key : string) (label : option string)
    (trend_data : gmap string string) : gmap string string :=
  match label with
  | Some l => <[key := l]> trend_data
  | None => trend_data
  end.

(** [_analyze_trends]. *)
Definition _analyze_trends (h : history) : option (gmap string string) :=
  let trend_data := set_label "eye_fatigue_trend" (eye_fatigue_trend (eye_fatigue h)) ∅ in
  stability ← symmetry_stability (facial_symmetry h);
  Some (set_label "symmetry_stability" stability trend_data).

End HealthAnalyzer.

(** ** data_storage.py *)

Module DataStorage.

Section Worker.
Context {Record_ : Type}.

(** The state of [_background_save_worker]: the shared queue, the
    local accumulator and the timer. *)
Record worker : Type := Worker {
  data_queue : list Record_;
  accumulated_data : list Record_;
  last_save_time : Q;
  save_interval : Q
}.

(** [start_real_time_saving] at clock reading [now]. *)
Definition start_real_time_saving (save_interval now : Q) : worker :=
  Worker [] [] now save_interval.

(** [queue_data_for_saving]. *)
Definition queue_data_for_saving (data : Record_) (w : worker) : worker :=
  Worker (data_queue w ++ [data]) (accumulated_data w)
         (last_save_time w) (save_interval w).

(** A call of [self.save]: the batch handed over and whether the call
    returned ([true]) or raised ([false]). *)
Definition save_call : Type := list Record_ * bool.

(** One turn of the [while self.running] loop at clock reading
    [current_time]; [save_ok] tells whether [self.save], if it is
    called, returns. The queue is drained first; the accumulator is
    cleared only when the save returned; the timer is reset after
    every attempt. *)
Definition worker_iteration (current_time : Q) (save_ok : bool) (w : worker)
  : worker * option save_call :=
  let accumulated := accumulated_data w ++ data_queue w in
  if Qle_bool (save_interval w) (current_time - last_save_time w)
     && truthy accumulated
  then
    (Worker [] (if save_ok then [] else accumulated)
            current_time (save_interval w),
     Some (accumulated, save_ok))
  else
    (Worker [] accumulated (last_save_time w) (save_interval w), None).

(** What happens around the worker: a producer enqueues a record, or
    the worker runs one turn of its loop. *)
Inductive event : Type :=
| Enqueue (data : Record_)
| Iterate (current_time : Q) (save_ok : bool).

Definition worker_step (st : worker * list save_call) (e : event)
  : worker * list save_call :=
  match e with
  | Enqueue data => (queue_data_for_saving data st.1, st.2)
  | Iterate current_time save_ok =>
      let r := worker_iteration current_time save_ok st.1 in
      (r.1, st.2 ++ option_list r.2)
  end.

(** Runs a trace from a worker state; the second component is the log
    of the [save] calls made. *)
Definition worker_run (w : worker) (trace : list event) : worker * list save_call :=
  fold_left worker_step trace (w, []).
End Worker.

End DataStorage.

(** ** complete_health_analyzer.py *)

Module CompleteHealthAnalyzer.

(** A face bounding box [(x, y, w, h)]; [face[2] * face[3]] is its
    area. *)
Definition bbox : Type := Z * Z * Z * Z.

Definition face_area (face : bbox) : Z :=
  let '(_, _, w, h) := face in (w * h)%Z.

(** *** Scoring at countdown completion *)

Definition add_symmetry (health_data : gmap string value) (acc : Q * Q) : option (Q * Q) :=
  match health_data !! "facial_symmetry" with
  | None => Some acc
  | Some v =>
      x ← as_num v;
      let weight := 2.5 in
      Some (acc.1 + x * 10 * weight, acc.2 + weight)
  end.

Definition add_eye_symmetry (health_data : gmap string value) (acc : Q * Q) : option (Q * Q) :=
  match health_data !! "eyes_level_symmetry" with
  | None => Some acc
  | Some v =>
      x ← as_num v;
      let weight := 1.5 in
      Some (acc.1 + x * 10 * weight, acc.2 + weight)
  end.

Definition add_texture (health_data : gmap string value) (acc : Q * Q) : option (Q * Q) :=
  match health_data !! "skin_texture" with
  | None => Some acc
  | Some v =>
      x ← as_num v;
      let texture_score := Qmax 0 (1 - x / 100) in
      let weight := 1.0 in
      Some (acc.1 + texture_score * 10 * weight, acc.2 + weight)
  end.

Definition fatigue_score (v : value) : Q :=
  if eq_str v "Low" then 1.0
  else if eq_str v "Moderate" then 0.7
  else if eq_str v "High" then 0.4
  else 0.8.

Definition add_fatigue (health_data : gmap string value) (acc : Q * Q) : option (Q * Q) :=
  match health_data !! "eye_fatigue" with
  | None => Some acc
  | Some v =>
      let weight := 1.0 in
      Some (acc.1 + fatigue_score v * 10 * weight, acc.2 + weight)
  end.

Definition add_stress (health_data : gmap string value) (acc : Q * Q) : option (Q * Q) :=
  match health_data !! "estimated_stress_level" with
  | None => Some acc
  | Some v =>
      level ← get_attr "value" (VNum 15) v;
      stress_level ← as_num level;
      let stress_score := Qmax 0 (1 - ((stress_level - 5) / 20)) in
      let weight := 1.0 in
      Some (acc.1 + stress_score * 10 * weight, acc.2 + weight)
  end.

(** [score] and [components] before the fallback. *)
Definition score_components (health_data : gmap string value) : option (Q * Q) :=
  acc ← add_symmetry health_data (0, 0);
  acc ← add_eye_symmetry health_data acc;
  acc ← add_texture health_data acc;
  acc ← add_fatigue health_data acc;
  add_stress health_data acc.

(** The [if components == 0] block; [rand i] is the value returned by
    the [i]-th call of [np.random.rand()], a number of [[0, 1)]. *)
Definition fallback (rand : nat → Q) (health_data : gmap string value) (acc : Q * Q)
  : gmap string value * (Q * Q) :=
  if Qeq_bool acc.2 0 then
    let score := 70 + rand 0%nat * 20 in
    let components := 1 in
    let health_data := <["facial_symmetry" := VNum (0.8 + rand 1%nat * 0.15)]> health_data in
    let health_data := <["eyes_level_symmetry" := VNum (0.85 + rand 2%nat * 0.1)]> health_data in
    let health_data := <["skin_texture" := VNum (20 + rand 3%nat * 15)]> health_data in
    let health_data :=
      <["eye_fatigue" := VStr (if Qltb 0.3 (rand 4%nat) then "Low" else "Moderate")]> health_data in
    let health_data := <["eye_health_note" := VStr "Minimal eye fatigue detected"]> health_data in
    (health_data, (score, components))
  else (health_data, acc).

(** The notes added when missing. *)
Definition add_notes (health_data : gmap string value) : option (gmap string value) :=
  let health_data :=
    match health_data !! "skin_tone_note" with
    | None => <["skin_tone_note" := VStr "Normal skin tone variation detected"]> health_data
    | Some _ => health_data
    end in
  match health_data !! "texture_note", health_data !! "skin_texture" with
  | None, Some v =>
      texture ← as_num v;
      Some (<["texture_note" :=
               VStr (if Qltb 40 texture
                     then "Moderate skin texture variation - may indicate mild dehydration"
                     else "Normal skin texture detected")]> health_data)
  | _, _ => Some health_data
  end.

(** The recommendation list. *)
Definition recommend (health_data : gmap string value) : option (list string) :=
  let r1 :=
    match health_data !! "eye_fatigue" with
    | Some v => if eq_str v "Moderate" || eq_str v "High"
                then ["Take a break from screen time"] else []
    | None => []
    end in
  symmetry ← as_num (default (VNum 1.0) (health_data !! "facial_symmetry"));
  let r2 := if Qltb symmetry 0.7 then ["Check for sleeping position issues"] else [] in
  texture ← as_num (default (VNum 0) (health_data !! "skin_texture"));
  let r3 := if Qltb 30 texture then ["Consider hydration and skincare routine"] else [] in
  let recommendations := r1 ++ r2 ++ r3 in
  Some (if truthy recommendations then recommendations
        else ["Maintain healthy habits and adequate rest"]).

Section Session.
Context {Frame Features : Type}.
(** The collaborators: feature extraction and health analysis. *)
Context (extract_features_from_frame : Frame → bbox → Features).
Context (analyze : Features → gmap string value).

(** [analysis_result]. Its ['health_analysis'] entry is the very
    dictionary [health_data] that the later statements go on
    updating, so it holds the final contents. *)
Record result : Type := Result {
  timestamp : string;
  face_id : Z;
  features : Features;
  health_analysis : gmap string value;
  health_score : Q;
  health_status : string;
  recommendations : list string
}.

(** The body of [if best_frame is not None and best_face is not None]. *)
Definition analyse_best (stamp : string) (rand : nat → Q)
    (best_frame : Frame) (best_face : bbox) : option result :=
  let features := extract_features_from_frame best_frame best_face in
  let health_data := analyze features in
  acc ← score_components health_data;
  let '(health_data, (score, components)) := fallback rand health_data acc in
  let health_score := round1 (score / Qmax 1 components) in
  let health_status := status_band health_score in
  health_data ← add_notes health_data;
  recommendations ← recommend health_data;
  Some (Result stamp 0 features health_data health_score health_status recommendations).

(** What one turn of the [while True] loop reads from its
    environment: the camera, the detector, the clock
    ([time.time()], read at most once per turn), the date stamp, the
    random generator and the keyboard ([cv2.waitKey(1)]). *)
Record tick : Type := Tick {
  ret : bool;
  frame : Frame;
  faces : list bbox;
  clock : Q;
  stamp : string;
  rand : nat → Q;
  waitKey : Z
}.

(** The local variables of [_run_facial_analysis], with the lines
    printed or overlaid so far. *)
Record loop : Type := Loop {
  analysis_done : bool;
  analysis_result : option result;
  best_frame : option Frame;
  best_face : option bbox;
  countdown_start : option Q;
  printed : list string
}.

Definition initial_loop : loop := Loop false None None None None [].

Inductive outcome : Type :=
| Continue (s : loop)
| Break (s : loop)
| Raise.

Definition say (msg : string) (s : loop) : loop :=
  Loop (analysis_done s) (analysis_result s) (best_frame s) (best_face s)
       (countdown_start s) (printed s ++ [msg]).

(** [key = cv2.waitKey(1) & 0xFF]; [ord('q')] is 113, [ord(' ')] 32. *)
Definition key_of (t : tick) : Z := Z.land (waitKey t) 255.
Definition ord_q : Z := 113.
Definition ord_space : Z := 32.

(** "Find the best face during countdown". *)
Definition keep_best (t : tick) (s : loop) : loop :=
  match max_by face_area (faces t) with
  | None => s
  | Some largest_face =>
      let face_size := face_area largest_face in
      let replace :=
        match best_face s with
        | None => true
        | Some best => (face_area best <? face_size)%Z
        end in
      if replace
      then Loop (analysis_done s) (analysis_result s) (Some (frame t))
                (Some largest_face) (countdown_start s) (printed s)
      else s
  end.

(** One turn of the loop. *)
Definition iteration (t : tick) (s : loop) : outcome :=
  if negb (ret t) then Break (say "Error: Failed to capture frame" s)
  else
    match countdown_start s with
    | Some start =>
        let remaining := (3 - int (clock t - start))%Z in
        if (remaining <=? 0)%Z then
          match best_frame s, best_face s with
          | Some bf, Some face =>
              match analyse_best (stamp t) (rand t) bf face with
              | Some r =>
                  Break (Loop true (Some r) (best_frame s) (best_face s)
                              (countdown_start s) (printed s))
              | None => Raise
              end
          | _, _ => Break (say "Analysis failed: No good face detected" s)
          end
        else
          let s := keep_best t s in
          if (key_of t =? ord_q)%Z then Break s else Continue s
    | None =>
        if (key_of t =? ord_q)%Z then Break s
        else if (key_of t =? ord_space)%Z then
          match max_by face_area (faces t) with
          | Some largest_face =>
              Continue (Loop (analysis_done s) (analysis_result s)
                             (Some (frame t)) (Some largest_face)
                             (Some (clock t)) (printed s))
          | None => Continue (say "No face detected!" s)
          end
        else Continue s
    end.

(** The loop over the successive turns; [Continue] at the end of the
    inputs means that the loop is waiting for the next frame. *)
Fixpoint run_loop (ticks : list tick) (s : loop) : outcome :=
  match ticks with
  | [] => Continue s
  | t :: ticks =>
      match iteration t s with
      | Continue s => run_loop ticks s
      | o => o
      end
  end.

(** "Store the result": the value of [self.facial_analysis_result]
    (initially [None]) once the loop is left. *)
Definition stored_result (s : loop) : option result :=
  if analysis_done s then analysis_result s else None.

Definition _run_facial_analysis (ticks : list tick) : outcome :=
  run_loop ticks initial_loop.
End Session.

End CompleteHealthAnalyzer.

(** * Specification-side notions *)

Module Spec.

Import RealtimeFacialAnalyzer.

Definition is_take {Frame} (op : @slot_op Frame) : bool :=
  match op with
  | TakeLatest => true
  | Publish _ => false
  end.

(** The number of [takeLatest] sections in a sequence. *)
Definition takes {Frame} (ops : list (@slot_op Frame)) : nat :=
  length (List.filter is_take ops).

(** [frame] is the frame of the last publish completed in [ops]. *)
Definition last_publish_of {Frame} (ops : list (@slot_op Frame)) (frame : Frame) : Prop :=
  ∃ before after,
    ops = before ++ Publish frame :: after ∧ ∀ g, Publish g ∉ after.

(** Nothing has been published in [ops]. *)
Definition nothing_published {Frame} (ops : list (@slot_op Frame)) : Prop :=
  ∀ g, Publish g ∉ ops.

(** The answer that the specification prescribes for a [takeLatest]
    issued after [ops]. *)
Definition most_recent_wins {Frame} (ops : list (@slot_op Frame)) (r : option Frame) : Prop :=
  match r with
  | Some frame => last_publish_of ops frame
  | None => nothing_published ops
  end.

(** *** History windows *)

Definition capacity : nat := 30.

(** [window] holds exactly the most recent [min n capacity] of the [n]
    values [xs], in arrival order: the older values are the evicted
    ones. *)
Definition most_recent {A} (xs window : list A) : Prop :=
  ∃ evicted, xs = evicted ++ window ∧ length window = (length xs `min` capacity)%nat.

(** The histories of [HealthAnalyzer] after the analysis of the
    successive [health_data] dictionaries. *)
Definition history_after (hs : list (gmap string value)) : HealthAnalyzer.history :=
  foldl (λ h d, HealthAnalyzer._update_history d h) HealthAnalyzer.initial_history hs.

(** The value that a [health_data] dictionary offers to each history. *)
Definition offered_fatigue (d : gmap string value) : option Q :=
  HealthAnalyzer.fatigue_value <$> d !! "eye_fatigue".

Definition offered_skin (d : gmap string value) : option HealthAnalyzer.skin_point :=
  match d !! "skin_texture", d !! "skin_tone_note" with
  | None, None => None
  | t, n => Some (HealthAnalyzer.SkinPoint t n)
  end.

(** The tracked state of [RealtimeFacialAnalyzer] after the successive
    calls of [_update_health_tracking]. *)
Definition tracking_after (hs : list (gmap string value)) : option tracking :=
  foldl (λ t d, t ← t; _update_health_tracking d t) (Some initial_tracking) hs.

(** The number that a [health_data] dictionary offers to the trend
    window [key]. *)
Definition offered_trend (key : string) (d : gmap string value) : option Q :=
  v ← d !! key;
  if String.eqb key "eye_fatigue" then fatigue_map_get v else as_num v.

(** *** The flusher *)

(** The records that the producers enqueue during a trace. *)
Definition enqueued {R} (trace : list (@DataStorage.event R)) : list R :=
  omap (λ e, match e with
             | DataStorage.Enqueue data => Some data
             | DataStorage.Iterate _ _ => None
             end) trace.

(** The records that the worker holds: accumulated first, then queued. *)
Definition pending {R} (w : @DataStorage.worker R) : list R :=
  DataStorage.accumulated_data w ++ DataStorage.data_queue w.

(** The interval has elapsed at clock reading [now]. *)
Definition due {R} (w : @DataStorage.worker R) (now : Q) : Prop :=
  DataStorage.save_interval w <= now - DataStorage.last_save_time w.

(** The records persisted by the calls of a log: those of the calls
    that returned. *)
Definition persisted {R} (log : list (@DataStorage.save_call R)) : list R :=
  flat_map (λ c : DataStorage.save_call, if c.2 then c.1 else []) log.

(** No call of the log returned. *)
Definition all_failed {R} (log : list (@DataStorage.save_call R)) : Prop :=
  Forall (λ c : DataStorage.save_call, c.2 = false) log.

(** *** The countdown capture session *)

(** The states of the capture session. *)
Inductive session_state : Type := Idle | Armed | Captured | Aborted.

(** The state that an outcome of the capture loop stands for: while the
    loop runs, [Idle] or [Armed] according to [countdown_start]; once it
    is left, [Captured] when the analysis was done and [Aborted]
    otherwise. An exception is no state. *)
Definition state_of {Frame Features}
    (o : @CompleteHealthAnalyzer.outcome Frame Features) : option session_state :=
  match o with
  | CompleteHealthAnalyzer.Continue s =>
      Some (match CompleteHealthAnalyzer.countdown_start s with
            | Some _ => Armed
            | None => Idle
            end)
  | CompleteHealthAnalyzer.Break s =>
      Some (if CompleteHealthAnalyzer.analysis_done s then Captured else Aborted)
  | CompleteHealthAnalyzer.Raise => None
  end.

(** The countdown started at [start] has elapsed at the turn [t]. *)
Definition elapsed {Frame} (start : Q) (t : @CompleteHealthAnalyzer.tick Frame) : Prop :=
  (3 - int (CompleteHealthAnalyzer.clock t - start) ≤ 0)%Z.

(** [face] is a largest region of [faces]. *)
Definition largest_region (faces : list CompleteHealthAnalyzer.bbox)
    (face : CompleteHealthAnalyzer.bbox) : Prop :=
  face ∈ faces
  ∧ ∀ other, other ∈ faces →
      (CompleteHealthAnalyzer.face_area other ≤ CompleteHealthAnalyzer.face_area face)%Z.

(** What a frame offers to the best-frame selection: the frame with its
    largest region, when a region is detected. *)
Definition candidate {Frame} (t : @CompleteHealthAnalyzer.tick Frame)
  : option (Frame * CompleteHealthAnalyzer.bbox) :=
  largest ← max_by CompleteHealthAnalyzer.face_area (CompleteHealthAnalyzer.faces t);
  Some (CompleteHealthAnalyzer.frame t, largest).

(** [best] is the first of the candidates [cs] whose area is maximal:
    the earlier ones are strictly smaller, the later ones not larger. *)
Definition first_largest {Frame} (cs : list (Frame * CompleteHealthAnalyzer.bbox))
    (best : Frame * CompleteHealthAnalyzer.bbox) : Prop :=
  ∃ earlier later,
    cs = earlier ++ best :: later
    ∧ Forall (λ c, (CompleteHealthAnalyzer.face_area c.2
                    < CompleteHealthAnalyzer.face_area best.2)%Z) earlier
    ∧ Forall (λ c, (CompleteHealthAnalyzer.face_area c.2
                    ≤ CompleteHealthAnalyzer.face_area best.2)%Z) later.

(** The frame and the region retained by the capture loop, as a pair. *)
Definition best_of {Frame Features} (s : @CompleteHealthAnalyzer.loop Frame Features)
  : option (Frame * CompleteHealthAnalyzer.bbox) :=
  f ← CompleteHealthAnalyzer.best_frame s;
  b ← CompleteHealthAnalyzer.best_face s;
  Some (f, b).

(** The indicators that the scoring at countdown completion reads, in
    the order of the code. *)
Definition session_scored : list string :=
  ["facial_symmetry"; "eyes_level_symmetry"; "skin_texture"; "eye_fatigue";
   "estimated_stress_level"].

(** The analysis produced none of the scored indicators. *)
Definition no_indicator (health_data : gmap string value) : Prop :=
  ∀ key, key ∈ session_scored → health_data !! key = None.

(** Every call of [np.random.rand()] returns a number of [[0, 1)]. *)
Definition unit_draws (rand : nat → Q) : Prop := ∀ i, 0 <= rand i ∧ rand i < 1.

(** *** The aggregate score *)









(** *** Trends *)

Inductive trend : Type := Increasing | Decreasing | Stable.

(** The class that a label of the trend classifier stands for. *)
Definition trend_of_label (label : string) : option trend :=
  if String.eqb label "Increasing (consider rest)" then Some Increasing
  else if String.eqb label "Decreasing (improving)" then Some Decreasing
  else if String.eqb label "Stable" then Some Stable
  else None.

(** The two-window comparison of the specification: the mean of the most
    recent 5 samples against the mean of the earliest 5 retained, with a
    band of 0.2. *)
Definition mean_shift (window : list Q) (c : trend) : Prop :=
  ∃ earliest middle recent,
    window = earliest ++ middle ++ recent
    ∧ length earliest = 5%nat ∧ length recent = 5%nat
    ∧ let difference := mean recent - mean earliest in
      match c with
      | Increasing => 0.2 < difference
      | Decreasing => difference < -0.2
      | Stable => -0.2 <= difference ∧ difference <= 0.2
      end.

(** What one update does to a trend window, given the number offered. *)
Definition window_step (o : option Q) (w : list Q) : list Q :=
  match o with
  | Some q => trend_append q w
  | None => w
  end.

End Spec.

(** * Sample inputs *)

Module Examples.

Import CompleteHealthAnalyzer.

(** Collaborators that find no indicator at all. *)
Definition blind_extract (_ : nat) (_ : bbox) : unit := ().
Definition blind_analyze (_ : unit) : gmap string value := ∅.

Definition half (_ : nat) : Q := 0.5.

(** A random generator that always returns 0.999. *)
Definition high (_ : nat) : Q := 0.999.



(** Five samples at 0.1 followed by five at 0.5, and the reverse. *)
Definition rising : list Q := replicate 5 0.1 ++ replicate 5 0.5.
Definition falling : list Q := replicate 5 0.5 ++ replicate 5 0.1.

(** A frame with one region and the trigger key pressed, at time 0. *)
Definition trigger : @tick nat :=
  Tick true 1%nat [(0, 0, 10, 10)%Z] 0 "20250101_120000" half 32.

(** A frame without region, one second later, no key pressed. *)
Definition blank : @tick nat :=
  Tick true 2%nat [] 1 "20250101_120001" half (-1).

(** A frame with two regions, the larger of area 400. *)
Definition crowded : @tick nat :=
  Tick true 3%nat [(0, 0, 3, 3)%Z; (5, 5, 20, 20)%Z; (1, 1, 20, 20)%Z] 2
       "20250101_120002" half (-1).

(** A frame with one region of area 400 as well. *)
Definition tie : @tick nat :=
  Tick true 4%nat [(2, 2, 40, 10)%Z] 2.5 "20250101_120002" half (-1).

(** A frame without region, three seconds after the trigger. *)
Definition expiry : @tick nat :=
  Tick true 5%nat [] 3 "20250101_120003" half (-1).

(** An armed loop that retains no best frame. *)
Definition armed_without_best : @loop nat unit :=
  Loop false None None None (Some 0) [].

End Examples.

(** * Theorems *)

(** ** The shared frame slot *)

Section FrameSlotFacts.
Import RealtimeFacialAnalyzer Spec.
Context {Frame : Type}.
Implicit Types (ops : list (@slot_op Frame)) (op : @slot_op Frame).

Lemma slot_run_snoc ops op :
  slot_run (ops ++ [op]) = slot_step (slot_run ops) op.
Proof. unfold slot_run. by rewrite fold_left_app. Qed.

Lemma slot_run_takes ops : length (slot_run ops).2 = takes ops.
Proof.
  induction ops as [|op ops IH] using rev_ind; [done|].
  rewrite slot_run_snoc. unfold takes in *.
  rewrite List.filter_app, length_app, <- IH.
  destruct op; simpl; [lia|by rewrite length_app].
Qed.

(** The slot always holds what the specification prescribes. *)
Lemma slot_state_most_recent ops : most_recent_wins ops (slot_run ops).1.
Proof.
  induction ops as [|op ops IH] using rev_ind.
  - intros g Hg. by apply elem_of_nil in Hg.
  - rewrite slot_run_snoc. destruct op as [f|]; simpl.
    + exists ops, []. split; [done|]. intros g Hg. by apply elem_of_nil in Hg.
    + destruct (slot_run ops).1 as [f|]; simpl in *.
      * destruct IH as (b & a & -> & Ha).
        exists b, (a ++ [TakeLatest]). split; [by rewrite <- app_assoc|].
        intros g [Hg|Hg]%elem_of_app; [by eapply Ha|].
        apply list_elem_of_singleton in Hg. discriminate.
      * intros g [Hg|Hg]%elem_of_app; [by eapply IH|].
        apply list_elem_of_singleton in Hg. discriminate.
Qed.

(** The log of a run is extended, never rewritten, by what follows. *)
Lemma slot_run_app_log ops ops' :
  ∃ more, (slot_run (ops ++ ops')).2 = (slot_run ops).2 ++ more.
Proof.
  induction ops' as [|op ops' IH] using rev_ind.
  - exists []. by rewrite !app_nil_r.
  - destruct IH as [more IH]. rewrite app_assoc, slot_run_snoc.
    destruct op; simpl.
    + by exists more.
    + exists (more ++ [takeLatest (slot_run (ops ++ ops')).1]).
      by rewrite IH, app_assoc.
Qed.

(** C2. In every sequence of publish and takeLatest critical sections on
    the frame slot, a takeLatest issued after the sections [before]
    returns the frame of the last publish completed in [before], and
    returns empty exactly when nothing has been published in [before];
    it never returns an older frame. *)
Theorem takeLatest_most_recent_wins (before after : list (@slot_op Frame)) :
  ∃ r,
    (slot_run (before ++ TakeLatest :: after)).2 !! takes before = Some r
    ∧ r = takeLatest (slot_run before).1
    ∧ most_recent_wins before r.
Proof.
  exists (takeLatest (slot_run before).1). split; [|split; [done|]].
  - replace (before ++ TakeLatest :: after)
      with ((before ++ [TakeLatest]) ++ after) by by rewrite <- app_assoc.
    destruct (slot_run_app_log (before ++ [TakeLatest]) after) as [more ->].
    rewrite slot_run_snoc. simpl.
    rewrite <- app_assoc, lookup_app_r by (rewrite slot_run_takes; lia).
    rewrite slot_run_takes, Nat.sub_diag. done.
  - apply slot_state_most_recent.
Qed.

End FrameSlotFacts.

(** ** History windows *)

Section WindowFacts.
Import Spec.
Context {A : Type}.
Implicit Types (xs w : list A) (x : A).

Lemma slice_last_most_recent xs : most_recent xs (slice_last capacity xs).
Proof.
  exists (take (length xs - capacity) xs). unfold slice_last. split.
  - by rewrite take_drop.
  - rewrite length_drop. lia.
Qed.

(** Appending to the last [capacity] values and evicting the oldest one
    on overflow gives the last [capacity] values again. *)
Lemma slice_last_snoc xs x :
  slice_last capacity (xs ++ [x]) =
    drop (length (slice_last capacity xs ++ [x]) - capacity)
         (slice_last capacity xs ++ [x]).
Proof.
  unfold slice_last, capacity.
  rewrite !length_app, length_drop. simpl.
  destruct (decide (length xs < 30)%nat) as [Hlt|Hge].
  - replace (length xs - 30)%nat with 0%nat by lia.
    replace (length xs + 1 - 30)%nat with 0%nat by lia.
    replace (length xs - 0 + 1 - 30)%nat with 0%nat by lia. done.
  - replace (length xs - (length xs - 30) + 1 - 30)%nat with 1%nat by lia.
    replace (length xs + 1 - 30)%nat with (S (length xs - 30)) by lia.
    rewrite !drop_app_le by (rewrite ?length_drop; lia).
    by rewrite drop_drop, Nat.add_1_r.
Qed.

Lemma history_append_slice xs x :
  HealthAnalyzer.history_append x (slice_last capacity xs)
  = slice_last capacity (xs ++ [x]).
Proof.
  rewrite slice_last_snoc.
  unfold HealthAnalyzer.history_append, HealthAnalyzer.history_max_size, pop0.
  assert (length (slice_last capacity xs) ≤ 30)%nat as Hle
    by (unfold slice_last, capacity; rewrite length_drop; lia).
  set (w0 := slice_last capacity xs) in *.
  rewrite length_app. simpl.
  destruct (30 <? length w0 + 1)%nat eqn:E.
  - apply Nat.ltb_lt in E.
    replace (length w0 + 1 - capacity)%nat with 1%nat by (unfold capacity; lia).
    by destruct (w0 ++ [x]).
  - apply Nat.ltb_ge in E.
    by replace (length w0 + 1 - capacity)%nat with 0%nat by (unfold capacity; lia).
Qed.

Lemma history_append_fold xs :
  foldl (λ w x, HealthAnalyzer.history_append x w) [] xs = slice_last capacity xs.
Proof.
  induction xs as [|x xs IH] using rev_ind; [done|].
  by rewrite foldl_app, IH; simpl; rewrite history_append_slice.
Qed.

(** A history fed with the values that a stream of inputs offers. *)
Lemma optional_append_fold {D} (offer : D → option A) (ds : list D) :
  foldl (λ w d, match offer d with
                | Some x => HealthAnalyzer.history_append x w
                | None => w
                end) [] ds
  = slice_last capacity (omap offer ds).
Proof.
  induction ds as [|d ds IH] using rev_ind; [done|].
  rewrite foldl_app, IH, omap_app. simpl.
  destruct (offer d); simpl; [apply history_append_slice|by rewrite app_nil_r].
Qed.
End WindowFacts.

Lemma trend_append_slice (xs : list Q) (x : Q) :
  RealtimeFacialAnalyzer.trend_append x (slice_last Spec.capacity xs)
  = slice_last Spec.capacity (xs ++ [x]).
Proof.
  rewrite slice_last_snoc. unfold RealtimeFacialAnalyzer.trend_append.
  set (w := slice_last Spec.capacity xs ++ [x]).
  destruct (30 <? length w)%nat eqn:E; [done|].
  apply Nat.ltb_ge in E. unfold Spec.capacity.
  by replace (length w - 30)%nat with 0%nat by lia.
Qed.

Lemma trend_append_fold (xs : list Q) :
  foldl (λ w x, RealtimeFacialAnalyzer.trend_append x w) [] xs
  = slice_last Spec.capacity xs.
Proof.
  induction xs as [|x xs IH] using rev_ind; [done|].
  by rewrite foldl_app, IH; simpl; rewrite trend_append_slice.
Qed.

Section HistoryStateFacts.
Import Spec HealthAnalyzer.

Lemma history_after_windows (hs : list (gmap string value)) :
  history_after hs =
    History (slice_last capacity (omap (λ d, d !! "facial_symmetry") hs))
            (slice_last capacity (omap offered_fatigue hs))
            (slice_last capacity (omap (λ d, d !! "facial_fullness") hs))
            (slice_last capacity (omap offered_skin hs)).
Proof.
  induction hs as [|d hs IH] using rev_ind; [done|].
  unfold history_after in *. rewrite foldl_app, IH. simpl.
  unfold _update_history. simpl. rewrite !omap_app. simpl.
  unfold offered_fatigue, offered_skin.
  f_equal.
  - destruct (d !! "facial_symmetry"); simpl;
      [apply history_append_slice|by rewrite app_nil_r].
  - destruct (d !! "eye_fatigue"); simpl;
      [apply history_append_slice|by rewrite app_nil_r].
  - destruct (d !! "facial_fullness"); simpl;
      [apply history_append_slice|by rewrite app_nil_r].
  - destruct (d !! "skin_texture"), (d !! "skin_tone_note"); simpl;
      first [apply history_append_slice|by rewrite app_nil_r].
Qed.
End HistoryStateFacts.

Section TrackingStateFacts.
Import Spec RealtimeFacialAnalyzer.
Implicit Types (d : gmap string value) (tr : gmap string (list Q)).

Lemma update_trend_lookup d tr key tr' key' :
  update_trend d tr key = Some tr' →
  tr' !! key' =
    if decide (key = key') then window_step (offered_trend key d) <$> tr !! key'
    else tr !! key'.
Proof.
  unfold update_trend, offered_trend.
  destruct (d !! key) as [v|] eqn:Hv; simpl.
  - destruct (String.eqb key "eye_fatigue") eqn:Hk.
    + destruct (fatigue_map_get v) as [q|] eqn:Hq; simpl; [|done].
      intros [= <-]. rewrite lookup_alter.
      case_decide; subst; by destruct (tr !! key').
    + destruct v as [q| |]; simpl; intros [= <-].
      * rewrite lookup_alter. case_decide; subst; by destruct (tr !! key').
      * case_decide; subst; by destruct (tr !! key').
      * case_decide; subst; by destruct (tr !! key').
  - intros [= <-]. case_decide; subst; by destruct (tr !! key').
Qed.

Lemma update_trends_lookup d tr tr' key :
  update_trends d tr = Some tr' → key ∈ trend_keys →
  tr' !! key = window_step (offered_trend key d) <$> tr !! key.
Proof.
  unfold update_trends, trend_keys. simpl.
  destruct (update_trend d tr "facial_symmetry") as [t1|] eqn:H1; simpl; [|done].
  destruct (update_trend d t1 "eye_fatigue") as [t2|] eqn:H2; simpl; [|done].
  destruct (update_trend d t2 "skin_texture") as [t3|] eqn:H3; simpl; [|done].
  intros H4 Hkey.
  pose proof (update_trend_lookup _ _ _ _ key H1) as E1.
  pose proof (update_trend_lookup _ _ _ _ key H2) as E2.
  pose proof (update_trend_lookup _ _ _ _ key H3) as E3.
  pose proof (update_trend_lookup _ _ _ _ key H4) as E4.
  rewrite E4, E3, E2, E1. clear E1 E2 E3 E4 H1 H2 H3 H4.
  repeat (apply elem_of_cons in Hkey as [->|Hkey]); [..|by apply elem_of_nil in Hkey];
    repeat case_decide; try discriminate; done.
Qed.

Lemma _calculate_health_score_trends t t' :
  _calculate_health_score t = Some t' → health_trends t' = health_trends t.
Proof.
  unfold _calculate_health_score.
  destruct (last (health_history t)); [|by intros [= <-]].
  destruct (score_components g); simpl; [|done]. by intros [= <-].
Qed.

Lemma _generate_health_status_trends t :
  health_trends (_generate_health_status t) = health_trends t.
Proof. unfold _generate_health_status. by destruct (health_history t). Qed.

Lemma _update_health_tracking_trends d t t' :
  _update_health_tracking d t = Some t' →
  update_trends d (health_trends t) = Some (health_trends t').
Proof.
  unfold _update_health_tracking.
  destruct (update_trends d (health_trends t)) as [tr|]; simpl; [|done].
  match goal with |- context [_calculate_health_score ?x] =>
    destruct (_calculate_health_score x) as [t1|] eqn:H1 end; simpl; [|done].
  intros [= <-]. rewrite _generate_health_status_trends.
  by rewrite (_calculate_health_score_trends _ _ H1).
Qed.

Lemma tracking_after_windows (hs : list (gmap string value)) t key :
  tracking_after hs = Some t → key ∈ trend_keys →
  health_trends t !! key = Some (slice_last capacity (omap (offered_trend key) hs)).
Proof.
  revert t. induction hs as [|d hs IH] using rev_ind; intros t.
  - intros [= <-] Hkey. simpl.
    repeat (apply elem_of_cons in Hkey as [->|Hkey]); [..|by apply elem_of_nil in Hkey];
      done.
  - unfold tracking_after in *. rewrite foldl_app. simpl.
    destruct (foldl _ _ hs) as [t0|]; simpl; [|done].
    intros Ht Hkey. apply _update_health_tracking_trends in Ht.
    rewrite (update_trends_lookup _ _ _ _ Ht Hkey), (IH t0 eq_refl Hkey).
    simpl. rewrite omap_app. simpl.
    destruct (offered_trend key d); simpl; [|by rewrite app_nil_r].
    by rewrite trend_append_slice.
Qed.
End TrackingStateFacts.

(** C5. Every history window holds at most 30 entries and evicts the
    oldest first: after any sequence of appends the window is exactly the
    most recent [min n 30] values in arrival order. This holds for the
    append of [_update_health_tracking] and for the one of
    [_update_history], hence for the four histories of [HealthAnalyzer]
    after any sequence of analyses and for the four trend windows of
    [RealtimeFacialAnalyzer] after any sequence of updates that raised no
    exception. *)
Theorem history_window_fifo :
  (∀ xs : list Q,
     Spec.most_recent xs (foldl (λ w x, RealtimeFacialAnalyzer.trend_append x w) [] xs))
  ∧ (∀ (A : Type) (xs : list A),
       Spec.most_recent xs (foldl (λ w x, HealthAnalyzer.history_append x w) [] xs))
  ∧ (∀ hs : list (gmap string value),
       let h := Spec.history_after hs in
       Spec.most_recent (omap (λ d, d !! "facial_symmetry") hs) (HealthAnalyzer.facial_symmetry h)
       ∧ Spec.most_recent (omap Spec.offered_fatigue hs) (HealthAnalyzer.eye_fatigue h)
       ∧ Spec.most_recent (omap (λ d, d !! "facial_fullness") hs) (HealthAnalyzer.facial_fullness h)
       ∧ Spec.most_recent (omap Spec.offered_skin hs) (HealthAnalyzer.skin_data h))
  ∧ (∀ (hs : list (gmap string value)) t key,
       Spec.tracking_after hs = Some t →
       key ∈ RealtimeFacialAnalyzer.trend_keys →
       ∃ w, RealtimeFacialAnalyzer.health_trends t !! key = Some w
            ∧ Spec.most_recent (omap (Spec.offered_trend key) hs) w).
Proof.
  repeat split.
  - intros xs. rewrite trend_append_fold. apply slice_last_most_recent.
  - intros A xs. rewrite history_append_fold. apply slice_last_most_recent.
  - rewrite history_after_windows. apply slice_last_most_recent.
  - rewrite history_after_windows. apply slice_last_most_recent.
  - rewrite history_after_windows. apply slice_last_most_recent.
  - rewrite history_after_windows. apply slice_last_most_recent.
  - intros hs t key Ht Hkey. eexists. split.
    + by apply tracking_after_windows.
    + apply slice_last_most_recent.
Qed.

Lemma history_window_fifo_witness :
  ∃ t, Spec.tracking_after [ {["facial_symmetry" := VNum 0.9]} ] = Some t
       ∧ ∃ w, RealtimeFacialAnalyzer.health_trends t !! "facial_symmetry" = Some w
              ∧ Spec.most_recent
                  (omap (Spec.offered_trend "facial_symmetry")
                        [ {["facial_symmetry" := VNum 0.9]} ]) w.
Proof.
  eexists. split; [vm_compute; reflexivity|].
  apply (proj2 (proj2 (proj2 history_window_fifo))
           [ {["facial_symmetry" := VNum 0.9]} ]).
  - vm_compute. reflexivity.
  - unfold RealtimeFacialAnalyzer.trend_keys. apply elem_of_cons. by left.
Defined.

(** ** The persistence flusher *)

Section FlusherFacts.
Import Spec DataStorage.
Context {R : Type}.
Implicit Types (w : @worker R) (e : @event R) (trace : list (@event R))
  (log : list (@save_call R)).

Lemma worker_run_snoc w trace e :
  worker_run w (trace ++ [e]) = worker_step (worker_run w trace) e.
Proof. unfold worker_run. by rewrite fold_left_app. Qed.

Lemma truthy_false {A} (l : list A) : truthy l = false → l = [].
Proof. by destruct l. Qed.

Lemma persisted_app log log' : persisted (log ++ log') = persisted log ++ persisted log'.
Proof. unfold persisted. apply flat_map_app. Qed.

Lemma persisted_all_failed log : all_failed log → persisted log = [].
Proof.
  induction 1 as [|[batch ok] log Hc _ IH]; [done|].
  simpl in *. subst. done.
Qed.

(** One turn of the loop neither drops nor duplicates a record. *)
Lemma worker_iteration_conservation now ok w :
  let r := worker_iteration now ok w in
  persisted (option_list r.2) ++ pending r.1 = pending w.
Proof.
  unfold worker_iteration, pending. simpl.
  destruct (Qle_bool _ _ && truthy _); simpl.
  - destruct ok; simpl; by rewrite ?app_nil_r.
  - by rewrite app_nil_r.
Qed.

(** No record is lost: at any time, what has been persisted followed by
    what the worker still holds is what was held at the start followed
    by what has been enqueued. *)
Lemma worker_run_conservation w trace :
  let r := worker_run w trace in
  persisted r.2 ++ pending r.1 = pending w ++ enqueued trace.
Proof.
  induction trace as [|e trace IH] using rev_ind.
  - simpl. by rewrite app_nil_r.
  - rewrite worker_run_snoc. simpl in *. unfold enqueued in *.
    rewrite omap_app, app_assoc, <- IH.
    destruct e as [data|now ok]; simpl.
    + unfold pending. simpl. by rewrite !app_assoc.
    + rewrite persisted_app, app_nil_r, <- app_assoc.
      f_equal. apply worker_iteration_conservation.
Qed.

Lemma all_failed_app log log' : all_failed (log ++ log') → all_failed log ∧ all_failed log'.
Proof. unfold all_failed. apply Forall_app. Qed.

(** The turn of the loop that is due on a non-empty accumulator calls
    [save] with everything held. *)
Lemma worker_iteration_due now ok w :
  due w now → pending w ≠ [] →
  worker_iteration now ok w =
    (Worker [] (if ok then [] else pending w) now (save_interval w),
     Some (pending w, ok)).
Proof.
  intros Hdue Hne. unfold worker_iteration. fold (pending w).
  apply Qle_bool_iff in Hdue. rewrite Hdue.
  destruct (pending w); [done|]. done.
Qed.

Lemma worker_run_interval w trace :
  save_interval (worker_run w trace).1 = save_interval w.
Proof.
  induction trace as [|e trace IH] using rev_ind; [done|].
  rewrite worker_run_snoc. destruct e as [data|now ok]; simpl; [done|].
  unfold worker_iteration. by destruct (Qle_bool _ _ && truthy _).
Qed.

(** A run can be cut in two: the second part starts from the state
    that the first part left and extends its log. *)
Lemma worker_run_app w trace trace' :
  worker_run w (trace ++ trace') =
    ((worker_run (worker_run w trace).1 trace').1,
     (worker_run w trace).2 ++ (worker_run (worker_run w trace).1 trace').2).
Proof.
  induction trace' as [|e trace' IH] using rev_ind.
  - rewrite !app_nil_r. simpl. by destruct (worker_run w trace).
  - rewrite app_assoc, !worker_run_snoc, IH.
    destruct e; simpl; [done|]. by rewrite app_assoc.
Qed.

(** While the interval has not elapsed the worker only accumulates. *)
Lemma worker_run_quiet w trace :
  (∀ t ok, Iterate t ok ∈ trace → t - last_save_time w < save_interval w) →
  (worker_run w trace).2 = []
  ∧ last_save_time (worker_run w trace).1 = last_save_time w
  ∧ pending (worker_run w trace).1 = pending w ++ enqueued trace.
Proof.
  induction trace as [|e trace IH] using rev_ind; intros Hq.
  - simpl. by rewrite app_nil_r.
  - destruct IH as (Hlog & Hlast & Hpend).
    { intros t ok Ht. apply (Hq t ok), elem_of_app. by left. }
    rewrite worker_run_snoc. unfold enqueued in *. rewrite omap_app, app_assoc, <- Hpend.
    destruct e as [data|now ok]; simpl.
    + repeat split; [done..|]. unfold pending. simpl. by rewrite app_assoc.
    + unfold worker_iteration.
      assert (Qle_bool (save_interval (worker_run w trace).1)
                (now - last_save_time (worker_run w trace).1) = false) as ->.
      { rewrite Hlast, worker_run_interval.
        destruct (Qle_bool _ _) eqn:E; [|done].
        apply Qle_bool_iff in E.
        assert (now - last_save_time w < save_interval w) as Hlt.
        { apply (Hq now ok), elem_of_app. right. by apply list_elem_of_singleton. }
        lra. }
      simpl. rewrite Hlog. split; [done|]. split; [done|].
      unfold pending. simpl. by rewrite !app_nil_r.
Qed.

(** With nothing held and nothing enqueued, no [save] call is made. *)
Lemma worker_run_idle w trace :
  pending w = [] → (∀ data, Enqueue data ∉ trace) →
  (worker_run w trace).2 = [] ∧ pending (worker_run w trace).1 = [].
Proof.
  intros Hw. induction trace as [|e trace IH] using rev_ind; intros Hn; [done|].
  destruct IH as (Hlog & Hpend).
  { intros data Hd. apply (Hn data), elem_of_app. by left. }
  rewrite worker_run_snoc. destruct e as [data|now ok]; simpl.
  - exfalso. apply (Hn data), elem_of_app. right. by apply list_elem_of_singleton.
  - unfold worker_iteration. fold (pending (worker_run w trace).1).
    rewrite Hpend, andb_false_r. simpl. by rewrite Hlog.
Qed.

(** C3. When a save attempt of the flusher fails, the accumulator keeps
    every record (nothing is dropped), and the next flush attempt that
    succeeds, whatever was enqueued and whichever attempts failed in
    between, hands to [save] the records accumulated before followed by
    those enqueued since; only then is the accumulator cleared. In every
    execution, what has been persisted followed by what the worker still
    holds is what it held at the start followed by what was enqueued. *)
Theorem flusher_failed_save_retains (w : @worker R) (now now' : Q)
    (mid : list (@event R)) :
  due w now → pending w ≠ [] →
  let failed := worker_iteration now false w in
  let later := worker_run failed.1 mid in
  all_failed later.2 → due later.1 now' →
  failed.2 = Some (pending w, false)
  ∧ accumulated_data failed.1 = pending w
  ∧ worker_iteration now' true later.1 =
      (Worker [] [] now' (save_interval w),
       Some (pending w ++ enqueued mid, true))
  ∧ (∀ (w0 : @worker R) (trace : list (@event R)),
       persisted (worker_run w0 trace).2 ++ pending (worker_run w0 trace).1
       = pending w0 ++ enqueued trace).
Proof.
  intros Hdue Hne failed later Hfail Hdue'.
  subst failed later. rewrite (worker_iteration_due _ _ _ Hdue Hne) in *.
  simpl in *. split; [done|]. split; [done|]. split; [|apply worker_run_conservation].
  set (w1 := Worker [] (pending w) now (save_interval w)) in *.
  pose proof (worker_run_conservation w1 mid) as Hc. simpl in Hc.
  rewrite (persisted_all_failed _ Hfail) in Hc. simpl in Hc.
  assert (pending w1 = pending w) as Hw1 by (unfold pending; simpl; by rewrite app_nil_r).
  rewrite Hw1 in Hc.
  rewrite worker_iteration_due; [|done|].
  - by rewrite Hc, worker_run_interval.
  - rewrite Hc. destruct (pending w); [done|]. done.
Qed.

(** C9. Three records enqueued within one flush interval (whatever the
    turns of the worker loop in between), then a turn of the loop once
    the interval has elapsed, whose save returns: [save] is called
    exactly once, with the three records; the later turns, with no new
    record, make no further call. A flush is attempted only when the
    interval has elapsed and the accumulator is not empty, and a
    successful flush empties the accumulator. *)
Theorem flusher_three_records (interval t0 : Q) (r1 r2 r3 : R)
    (pre : list (@event R)) (now : Q) (post : list (@event R)) :
  enqueued pre = [r1; r2; r3] →
  (∀ t ok, Iterate t ok ∈ pre → t - t0 < interval) →
  interval <= now - t0 →
  (∀ data, Enqueue data ∉ post) →
  (worker_run (start_real_time_saving interval t0)
              (pre ++ Iterate now true :: post)).2
  = [([r1; r2; r3], true)]
  ∧ (∀ (w : @worker R) current_time save_ok call,
       (worker_iteration current_time save_ok w).2 = Some call →
       due w current_time ∧ pending w ≠ [] ∧ call = (pending w, save_ok)
       ∧ (save_ok = true → pending (worker_iteration current_time save_ok w).1 = [])).
Proof.
  intros Hpre Hquiet Hdue Hpost. split; cycle 1.
  { intros w current_time save_ok call. unfold worker_iteration. fold (pending w).
    destruct (Qle_bool _ _) eqn:E; simpl; [|done].
    destruct (pending w) eqn:Ep; simpl; [done|]. intros [= <-].
    apply Qle_bool_iff in E. split; [done|]. split; [done|]. split; [done|].
    by intros ->. }
  set (w0 := start_real_time_saving interval t0).
  destruct (worker_run_quiet w0 pre Hquiet) as (Hlog & Hlast & Hpend).
  rewrite Hpre in Hpend. simpl in Hpend.
  rewrite worker_run_app, Hlog. simpl.
  change (Iterate now true :: post) with ([Iterate now true] ++ post).
  rewrite worker_run_app. simpl.
  set (w1 := (worker_run w0 pre).1) in *.
  assert (due w1 now) as Hd.
  { unfold due. rewrite Hlast. unfold w1. by rewrite worker_run_interval. }
  rewrite (worker_iteration_due now true w1 Hd) by by rewrite Hpend.
  simpl. rewrite Hpend.
  destruct (worker_run_idle (Worker [] [] now (save_interval w1)) post eq_refl Hpost)
    as [-> _].
  done.
Qed.

End FlusherFacts.

Lemma flusher_failed_save_retains_witness :
  let w : @DataStorage.worker nat := DataStorage.Worker [2%nat] [1%nat] 0 5 in
  let mid := [DataStorage.Enqueue 3%nat; DataStorage.Iterate 7 true] in
  Spec.due w 5 ∧ Spec.pending w ≠ []
  ∧ DataStorage.accumulated_data (DataStorage.worker_iteration 5 false w).1 = [1%nat; 2%nat]
  ∧ DataStorage.worker_iteration 10 true
      (DataStorage.worker_run (DataStorage.worker_iteration 5 false w).1 mid).1
    = (DataStorage.Worker [] [] 10 5, Some ([1%nat; 2%nat; 3%nat], true)).
Proof.
  intros w mid.
  assert (Spec.due w 5) as H1 by (unfold Spec.due, Qle; simpl; lia).
  assert (Spec.pending w ≠ []) as H2 by done.
  assert (Spec.all_failed
            (DataStorage.worker_run (DataStorage.worker_iteration 5 false w).1 mid).2) as H3
    by (vm_compute; constructor).
  assert (Spec.due
            (DataStorage.worker_run (DataStorage.worker_iteration 5 false w).1 mid).1 10) as H4
    by (vm_compute; discriminate).
  split; [exact H1|]. split; [exact H2|].
  destruct (flusher_failed_save_retains w 5 10 mid H1 H2 H3 H4) as (_ & Hkept & Hsaved & _).
  split; [exact Hkept|exact Hsaved].
Defined.

Lemma flusher_three_records_witness :
  (DataStorage.worker_run (DataStorage.start_real_time_saving 5 100)
     ([DataStorage.Enqueue 1%nat; DataStorage.Iterate 101 true; DataStorage.Enqueue 2%nat;
       DataStorage.Enqueue 3%nat; DataStorage.Iterate 104 false]
      ++ DataStorage.Iterate 105 true
      :: [DataStorage.Iterate 111 true; DataStorage.Iterate 120 false])).2
  = [([1%nat; 2%nat; 3%nat], true)].
Proof.
  apply (λ H1 H2 H3 H4, proj1 (flusher_three_records 5 100 1%nat 2%nat 3%nat
           [DataStorage.Enqueue 1%nat; DataStorage.Iterate 101 true; DataStorage.Enqueue 2%nat;
            DataStorage.Enqueue 3%nat; DataStorage.Iterate 104 false]
           105 [DataStorage.Iterate 111 true; DataStorage.Iterate 120 false] H1 H2 H3 H4)).
  - reflexivity.
  - intros t ok Hin.
    repeat (apply elem_of_cons in Hin as [Hin|Hin]; [try discriminate|]);
      [..|by apply elem_of_nil in Hin];
      injection Hin as -> _; unfold Qlt; simpl; lia.
  - unfold Qle. simpl. lia.
  - intros data Hin.
    repeat (apply elem_of_cons in Hin as [Hin|Hin]; [discriminate|]).
    by apply elem_of_nil in Hin.
Defined.

(** ** The countdown capture loop *)

Section MaxByFacts.
Context {A : Type} (key : A → Z).

Lemma max_by_fold_spec (l : list A) (x : A) :
  let m := fold_left (λ best y, if (key best <? key y)%Z then y else best) l x in
  m ∈ x :: l ∧ (key x ≤ key m)%Z ∧ ∀ y, y ∈ l → (key y ≤ key m)%Z.
Proof.
  revert x. induction l as [|y l IH]; intros x; simpl.
  - split; [by left|]. split; [lia|]. intros y Hy. by apply elem_of_nil in Hy.
  - destruct (Z.ltb_spec (key x) (key y)) as [Hlt|Hge].
    + destruct (IH y) as (Hin & Hle & Hall). split; [by right|]. split; [lia|].
      intros z [->|Hz]%elem_of_cons; [done|by apply Hall].
    + destruct (IH x) as (Hin & Hle & Hall). split.
      { apply elem_of_cons in Hin as [->|Hin]; [by left|by right; right]. }
      split; [done|]. intros z [->|Hz]%elem_of_cons; [lia|by apply Hall].
Qed.

(** [max(l, key=...)] returns an element of [l] with the largest key. *)
Lemma max_by_spec (l : list A) (m : A) :
  max_by key l = Some m → m ∈ l ∧ ∀ y, y ∈ l → (key y ≤ key m)%Z.
Proof.
  destruct l as [|x l]; [done|]. simpl. intros [= <-].
  destruct (max_by_fold_spec l x) as (Hin & Hle & Hall).
  split; [done|]. intros y [->|Hy]%elem_of_cons; [done|by apply Hall].
Qed.
End MaxByFacts.

Section CaptureFacts.
Import Spec CompleteHealthAnalyzer.
Context {Frame Features : Type}.
Context (extract : Frame → bbox → Features) (analyze : Features → gmap string value).
Implicit Types (t : @tick Frame) (s : @loop Frame Features)
  (ticks : list (@tick Frame)).


Lemma candidate_faces t : candidate t = None ↔ faces t = [].
Proof. unfold candidate. by destruct (faces t). Qed.

Lemma candidate_largest t c :
  candidate t = Some c → c.1 = frame t ∧ largest_region (faces t) c.2.
Proof.
  unfold candidate. destruct (max_by face_area (faces t)) as [m|] eqn:E; [|done].
  simpl. intros [= <-]. split; [done|]. by apply max_by_spec.
Qed.

Lemma keep_best_countdown t s : countdown_start (keep_best t s) = countdown_start s.
Proof.
  unfold keep_best. destruct (max_by _ _); [|done].
  by destruct (match best_face s with Some _ => _ | None => _ end).
Qed.

(** Replace-if-larger: the candidate of the turn takes the place of the
    retained pair exactly when its area is strictly larger. *)
Lemma keep_best_best t s f b :
  best_of s = Some (f, b) →
  best_of (keep_best t s) =
    match candidate t with
    | Some c => if (face_area b <? face_area c.2)%Z then Some c else Some (f, b)
    | None => Some (f, b)
    end.
Proof.
  unfold best_of, keep_best, candidate.
  destruct (best_frame s) as [f'|] eqn:Hf; [|done].
  destruct (best_face s) as [b'|] eqn:Hb; [|done].
  simpl. intros [= -> ->].
  destruct (max_by face_area (faces t)) as [m|]; simpl; [|by rewrite Hf, Hb].
  destruct (face_area b <? face_area m)%Z; simpl; [done|by rewrite Hf, Hb].
Qed.

(** A turn of the armed loop that goes on has only updated the best
    frame. *)
Lemma armed_step t s s' start :
  countdown_start s = Some start → iteration extract analyze t s = Continue s' →
  s' = keep_best t s ∧ ¬ elapsed start t.
Proof.
  intros Hs. unfold iteration. rewrite Hs.
  destruct (ret t); simpl; [|done].
  destruct (Z.leb_spec (3 - int (clock t - start)) 0) as [Hle|Hgt].
  - destruct (best_frame s), (best_face s); try done.
    by destruct (analyse_best _ _ _ _ _ _).
  - destruct (key_of t =? ord_q)%Z; [done|]. intros [= <-].
    split; [done|]. unfold elapsed. lia.
Qed.

Lemma first_largest_snoc (cs : list (Frame * bbox)) best c :
  first_largest cs best →
  first_largest (cs ++ [c])
    (if (face_area best.2 <? face_area c.2)%Z then c else best).
Proof.
  intros (earlier & later & -> & He & Hl).
  destruct (Z.ltb_spec (face_area best.2) (face_area c.2)) as [Hlt|Hge].
  - exists (earlier ++ best :: later), []. split; [done|]. split; [|constructor].
    apply Forall_app. split; [|constructor].
    + eapply Forall_impl; [exact He|]. simpl. intros; lia.
    + lia.
    + eapply Forall_impl; [exact Hl|]. simpl. intros; lia.
  - exists earlier, (later ++ [c]). split; [by rewrite <- app_assoc|].
    split; [done|]. apply Forall_app. split; [done|]. by constructor.
Qed.

Lemma armed_run ticks s s' start cs best :
  countdown_start s = Some start → best_of s = Some best →
  first_largest cs best → run_loop extract analyze ticks s = Continue s' →
  countdown_start s' = Some start
  ∧ ∃ best', best_of s' = Some best'
             ∧ first_largest (cs ++ omap candidate ticks) best'.
Proof.
  revert s cs best. induction ticks as [|t ticks IH]; intros s cs best Hs Hb Hcs; simpl.
  - intros [= <-]. split; [done|]. exists best. by rewrite app_nil_r.
  - destruct (iteration extract analyze t s) as [s1| |] eqn:E; try done.
    destruct (armed_step _ _ _ _ Hs E) as [-> _]. destruct best as [f b].
    pose proof (keep_best_best t _ _ _ Hb) as Hb1.
    pose proof (keep_best_countdown t s) as Hs1. rewrite Hs in Hs1.
    destruct (candidate t) as [c|]; simpl.
    + intros Hrun. rewrite cons_middle, app_assoc. eapply IH; [done| |by apply first_largest_snoc|done].
      simpl. by destruct (face_area b <? face_area c.2)%Z.
    + by eapply IH.
Qed.

(** C8. From the turn [t0] that arms the countdown on, the retained best
    frame is, after any further turns [ticks] of the running countdown,
    the first of the frames seen since [t0] whose largest region has the
    maximal area: frames seen earlier have a strictly smaller largest
    region (a tie keeps the earlier frame), frames seen later do not have
    a larger one. Each candidate is a frame together with a largest region
    detected in it, and a frame without region offers none. *)
Theorem best_frame_first_largest s0 t0 s1 ticks s' :
  countdown_start s0 = None →
  iteration extract analyze t0 s0 = Continue s1 → is_Some (countdown_start s1) →
  run_loop extract analyze ticks s1 = Continue s' →
  (∃ best, best_of s' = Some best
           ∧ first_largest (omap candidate (t0 :: ticks)) best)
  ∧ (∀ t c, t ∈ t0 :: ticks → candidate t = Some c →
       c.1 = frame t ∧ largest_region (faces t) c.2)
  ∧ (∀ t, t ∈ t0 :: ticks → candidate t = None ↔ faces t = [])
  ∧ (∀ (s2 s3 : @loop Frame Features) (t : @tick Frame) f b,
       is_Some (countdown_start s2) → best_of s2 = Some (f, b) →
       iteration extract analyze t s2 = Continue s3 →
       best_of s3 =
         match candidate t with
         | Some c => if (face_area b <? face_area c.2)%Z then Some c else Some (f, b)
         | None => Some (f, b)
         end).
Proof.
  intros Hidle Hstep [start Harmed] Hrun. split; [|split; [|split]]; cycle 3.
  { intros s2 s3 t f b [start2 Hs2] Hb2 Hstep2.
    destruct (armed_step _ _ _ _ Hs2 Hstep2) as [-> _]. by apply keep_best_best. }
  - unfold iteration in Hstep. rewrite Hidle in Hstep.
    destruct (ret t0); simpl in Hstep; [|done].
    destruct (key_of t0 =? ord_q)%Z; [done|].
    destruct (key_of t0 =? ord_space)%Z; cycle 1.
    { injection Hstep as <-. by rewrite Hidle in Harmed. }
    unfold omap at 1. simpl. unfold candidate at 1.
    destruct (max_by face_area (faces t0)) as [largest|] eqn:El; cycle 1.
    { injection Hstep as <-. simpl in Harmed. by rewrite Hidle in Harmed. }
    injection Hstep as <-.
    destruct (armed_run ticks _ s' start [(frame t0, largest)] (frame t0, largest)
                Harmed eq_refl) as (_ & best' & Hb & Hf); [|done|].
    { exists [], []. repeat split; constructor. }
    by exists best'.
  - intros t c _. apply candidate_largest.
  - intros t _. apply candidate_faces.
Qed.

(** The countdown can only be armed on a frame with a detected region,
    which is retained at once. *)
Lemma arming_step t s s' :
  countdown_start s = None →
  iteration extract analyze t s = Continue s' → is_Some (countdown_start s') →
  faces t ≠ [] ∧ key_of t = ord_space ∧ countdown_start s' = Some (clock t)
  ∧ best_of s' = candidate t ∧ is_Some (candidate t).
Proof.
  intros Hidle Hstep [start Harmed].
  unfold iteration in Hstep. rewrite Hidle in Hstep.
  destruct (ret t); simpl in Hstep; [|done].
  destruct (key_of t =? ord_q)%Z; [done|].
  destruct (Z.eqb_spec (key_of t) ord_space) as [Hk|Hk]; cycle 1.
  { injection Hstep as <-. by rewrite Hidle in Harmed. }
  unfold candidate.
  destruct (max_by face_area (faces t)) as [largest|] eqn:El; cycle 1.
  { injection Hstep as <-. simpl in Harmed. by rewrite Hidle in Harmed. }
  injection Hstep as <-. simpl.
  repeat split; [|done..]. intros Hf. by rewrite Hf in El.
Qed.

(** Whenever the running loop is armed, a best frame is retained. *)
Lemma armed_retains_best ticks s s' :
  (is_Some (countdown_start s) → is_Some (best_of s)) →
  run_loop extract analyze ticks s = Continue s' →
  is_Some (countdown_start s') → is_Some (best_of s').
Proof.
  revert s. induction ticks as [|t ticks IH]; intros s Hinv; simpl.
  - by intros [= <-].
  - destruct (iteration extract analyze t s) as [s1| |] eqn:E; try done.
    apply IH. intros Harmed1.
    destruct (countdown_start s) as [start|] eqn:Hs.
    + destruct (armed_step _ _ _ _ Hs E) as [-> _].
      destruct Hinv as [[f b] Hb]; [done|].
      rewrite (keep_best_best t _ _ _ Hb).
      destruct (candidate t); [|done]. by destruct (face_area b <? face_area p.2)%Z.
    + destruct (arming_step _ _ _ Hs E Harmed1) as (_ & _ & _ & -> & Hc). done.
Qed.

(** C7 (amended). The countdown can be armed only on a frame in which a
    region is detected, and this frame is retained at once. Hence, when
    the countdown elapses in a run of the loop, a best frame is retained
    and the analysis runs on it, regions detected during the countdown
    or not: the session is captured with a stored result, unless the
    scoring raises. Were no best frame retained when the countdown
    elapses, the loop would be left, not sent back to [Idle], after the
    message "Analysis failed: No good face detected", with no result
    stored. A trigger on a frame without region leaves the session
    [Idle], with the message "No face detected!" and no result. *)
Theorem countdown_elapse_outcome ticks s start t :
  _run_facial_analysis extract analyze ticks = Continue s →
  countdown_start s = Some start →
  ret t = true → elapsed start t →
  (∃ f b, best_of s = Some (f, b)
     ∧ match analyse_best extract analyze (stamp t) (rand t) f b with
       | Some r =>
           ∃ s', iteration extract analyze t s = Break s'
                 ∧ state_of (Break s') = Some Captured
                 ∧ stored_result s' = Some r
       | None => iteration extract analyze t s = Raise
       end)
  ∧ (∀ s2 : @loop Frame Features,
       countdown_start s2 = Some start → best_of s2 = None →
       iteration extract analyze t s2
       = Break (say "Analysis failed: No good face detected" s2)
       ∧ stored_result (say "Analysis failed: No good face detected" s2)
         = stored_result s2)
  ∧ (∀ (s0 : @loop Frame Features) (t0 : @tick Frame),
       countdown_start s0 = None → ret t0 = true →
       key_of t0 = ord_space → faces t0 = [] →
       iteration extract analyze t0 s0 = Continue (say "No face detected!" s0)
       ∧ state_of (Continue (say "No face detected!" s0)) = Some Idle
       ∧ stored_result (say "No face detected!" s0) = stored_result s0)
  ∧ (∀ (s0 s1 : @loop Frame Features) (t0 : @tick Frame),
       countdown_start s0 = None →
       iteration extract analyze t0 s0 = Continue s1 →
       state_of (Continue s1) = Some Armed →
       faces t0 ≠ [] ∧ best_of s1 = candidate t0 ∧ is_Some (candidate t0)).
Proof.
  intros Hrun Hs Hret Hel.
  assert (∀ s2 : @loop Frame Features, countdown_start s2 = Some start →
            (3 - int (clock t - start) <=? 0)%Z = true) as Hleb.
  { intros _ _. apply Z.leb_le, Hel. }
  split; [|split; [|split]].
  - destruct (armed_retains_best ticks initial_loop s) as [[f b] Hb];
      [by intros [? [=]]|done|by rewrite Hs|].
    exists f, b. split; [done|].
    unfold best_of in Hb.
    destruct (best_frame s) as [f'|] eqn:Hf; [|done].
    destruct (best_face s) as [b'|] eqn:Hbf; [|done].
    simpl in Hb. injection Hb as -> ->.
    unfold iteration. rewrite Hret, Hs, (Hleb s Hs), Hf, Hbf. simpl.
    destruct (analyse_best _ _ _ _ _ _) as [r|]; [|done].
    eexists. split; [done|]. done.
  - intros s2 Hs2 Hb2. split; [|done].
    unfold iteration. rewrite Hret, Hs2, (Hleb s2 Hs2). simpl.
    unfold best_of in Hb2.
    destruct (best_frame s2); [|done]. by destruct (best_face s2).
  - intros s0 t0 Hs0 Hret0 Hk Hf0. split; [|split].
    + unfold iteration. rewrite Hret0, Hs0, Hk, Hf0. done.
    + simpl. by rewrite Hs0.
    + done.
  - intros s0 s1 t0 Hs0 Hstep Hst.
    destruct (arming_step t0 s0 s1 Hs0 Hstep) as (? & _ & _ & ? & ?); [|done].
    simpl in Hst. by destruct (countdown_start s1).
Qed.

End CaptureFacts.

Lemma best_frame_first_largest_witness :
  ∃ s1 s',
    CompleteHealthAnalyzer.iteration Examples.blind_extract Examples.blind_analyze
      Examples.trigger CompleteHealthAnalyzer.initial_loop
    = CompleteHealthAnalyzer.Continue s1
    ∧ CompleteHealthAnalyzer.run_loop Examples.blind_extract Examples.blind_analyze
        [Examples.blank; Examples.crowded; Examples.tie] s1
      = CompleteHealthAnalyzer.Continue s'
    ∧ Spec.best_of s' = Some (3%nat, (5, 5, 20, 20)%Z)
    ∧ ∃ best, Spec.best_of s' = Some best
              ∧ Spec.first_largest
                  (omap Spec.candidate
                     [Examples.trigger; Examples.blank; Examples.crowded; Examples.tie])
                  best.
Proof.
  eexists. eexists.
  split; [vm_compute; reflexivity|].
  split; [vm_compute; reflexivity|].
  split; [vm_compute; reflexivity|].
  refine (proj1 (best_frame_first_largest Examples.blind_extract Examples.blind_analyze
                   CompleteHealthAnalyzer.initial_loop Examples.trigger _
                   [Examples.blank; Examples.crowded; Examples.tie] _ _ _ _ _)).
  - reflexivity.
  - vm_compute. reflexivity.
  - eexists. reflexivity.
  - vm_compute. reflexivity.
Defined.

(** C7 (counterexample). A countdown during which no region is detected
    at all: the trigger frame is retained, and at expiry the session is
    captured with a stored result. And from an armed loop that retains no
    best frame, the expiry leaves the loop ([Aborted]) instead of going
    back to [Idle]. *)
Lemma countdown_without_region_counterexample :
  CompleteHealthAnalyzer.faces Examples.blank = []
  ∧ CompleteHealthAnalyzer.faces Examples.expiry = []
  ∧ (∃ s r,
       CompleteHealthAnalyzer._run_facial_analysis
         Examples.blind_extract Examples.blind_analyze
         [Examples.trigger; Examples.blank; Examples.expiry]
       = CompleteHealthAnalyzer.Break s
       ∧ Spec.state_of (CompleteHealthAnalyzer.Break s) = Some Spec.Captured
       ∧ CompleteHealthAnalyzer.stored_result s = Some r)
  ∧ Spec.state_of
      (CompleteHealthAnalyzer.iteration Examples.blind_extract Examples.blind_analyze
         Examples.expiry Examples.armed_without_best)
    = Some Spec.Aborted.
Proof.
  split; [reflexivity|]. split; [reflexivity|]. split.
  - eexists. eexists. split; [vm_compute; reflexivity|]. split; reflexivity.
  - vm_compute. reflexivity.
Qed.

Lemma countdown_elapse_outcome_witness :
  ∃ s,
    CompleteHealthAnalyzer._run_facial_analysis
      Examples.blind_extract Examples.blind_analyze [Examples.trigger; Examples.blank]
    = CompleteHealthAnalyzer.Continue s
    ∧ CompleteHealthAnalyzer.countdown_start s = Some 0
    ∧ CompleteHealthAnalyzer.ret Examples.expiry = true
    ∧ Spec.elapsed 0 Examples.expiry
    ∧ ∃ f b, Spec.best_of s = Some (f, b)
        ∧ match CompleteHealthAnalyzer.analyse_best
                  Examples.blind_extract Examples.blind_analyze
                  (CompleteHealthAnalyzer.stamp Examples.expiry)
                  (CompleteHealthAnalyzer.rand Examples.expiry) f b with
          | Some r =>
              ∃ s', CompleteHealthAnalyzer.iteration
                      Examples.blind_extract Examples.blind_analyze Examples.expiry s
                    = CompleteHealthAnalyzer.Break s'
                    ∧ Spec.state_of (CompleteHealthAnalyzer.Break s') = Some Spec.Captured
                    ∧ CompleteHealthAnalyzer.stored_result s' = Some r
          | None =>
              CompleteHealthAnalyzer.iteration
                Examples.blind_extract Examples.blind_analyze Examples.expiry s
              = CompleteHealthAnalyzer.Raise
          end.
Proof.
  eexists.
  split; [vm_compute; reflexivity|].
  split; [reflexivity|].
  split; [reflexivity|].
  split; [vm_compute; discriminate|].
  refine (proj1 (countdown_elapse_outcome Examples.blind_extract Examples.blind_analyze
                   [Examples.trigger; Examples.blank] _ 0 Examples.expiry _ _ _ _)).
  - vm_compute. reflexivity.
  - reflexivity.
  - reflexivity.
  - vm_compute. discriminate.
Defined.

(** ** Rounding *)

Section RoundFacts.

Lemma round_half_even_comp (x y : Q) : x == y → round_half_even x = round_half_even y.
Proof.
  intros H. unfold round_half_even.
  rewrite (Qfloor_comp _ _ H).
  assert (x - inject_Z (Qfloor y) == y - inject_Z (Qfloor y)) as -> by by rewrite H.
  done.
Qed.

Lemma round1_comp (x y : Q) : x == y → round1 x = round1 y.
Proof.
  intros H. unfold round1. f_equal. f_equal.
  apply round_half_even_comp. by rewrite H.
Qed.

(** Rounding stays between the floor and the next integer. *)
Lemma round_half_even_floor (x : Q) :
  (Qfloor x ≤ round_half_even x ≤ Qfloor x + 1)%Z.
Proof.
  unfold round_half_even.
  destruct (Qcompare _ _); [destruct (Z.even _)|..]; lia.
Qed.

(** Rounding does not cross an integer. *)
Lemma round_half_even_ge (n : Z) (x : Q) : inject_Z n <= x → (n ≤ round_half_even x)%Z.
Proof.
  intros H. apply Qfloor_resp_le in H. rewrite Qfloor_Z in H.
  pose proof (round_half_even_floor x). lia.
Qed.

Lemma round_half_even_le (m : Z) (x : Q) : x <= inject_Z m → (round_half_even x ≤ m)%Z.
Proof.
  intros H. pose proof (Qfloor_resp_le _ _ H) as Hf. rewrite Qfloor_Z in Hf.
  destruct (decide (Qfloor x = m)) as [E|E].
  - unfold round_half_even. rewrite E.
    destruct (Qcompare_spec (x - inject_Z m) (1 # 2)); [lra|lia|lra].
  - pose proof (round_half_even_floor x). lia.
Qed.

Lemma round_half_even_Z (n : Z) : round_half_even (inject_Z n) = n.
Proof.
  apply Z.le_antisymm; [apply round_half_even_le|apply round_half_even_ge]; lra.
Qed.

(** [round(x, 1)] stays within bounds that have one decimal. *)
Lemma round1_bounds (a b : Z) (x : Q) :
  inject_Z a / 10 <= x → x <= inject_Z b / 10 →
  inject_Z a / 10 <= round1 x ∧ round1 x <= inject_Z b / 10.
Proof.
  intros Ha Hb. unfold round1, Qdiv in *. change (/ 10) with (1 # 10) in *.
  assert (a ≤ round_half_even (x * 10))%Z as H1 by (apply round_half_even_ge; lra).
  assert (round_half_even (x * 10) ≤ b)%Z as H2 by (apply round_half_even_le; lra).
  rewrite Zle_Qle in H1, H2. lra.
Qed.

End RoundFacts.

(** ** The fabricated score of the capture session *)

Section FallbackFacts.
Import Spec CompleteHealthAnalyzer.
Context {Frame Features : Type}.
Context (extract : Frame → bbox → Features) (analyze : Features → gmap string value).

Lemma no_indicator_components (health_data : gmap string value) :
  no_indicator health_data → score_components health_data = Some (0, 0).
Proof.
  intros Hno. unfold score_components, add_symmetry, add_eye_symmetry, add_texture,
    add_fatigue, add_stress.
  rewrite !Hno; [done|unfold session_scored; set_solver..].
Qed.

Lemma status_band_excellent (x : Q) : 8.5 <= x → status_band x = "Excellent".
Proof. intros H. unfold status_band. apply Qle_bool_iff in H. by rewrite H. Qed.

(** C10 (amended). When the analysis at countdown completion produced
    none of the scored indicators, the indicators are fabricated from
    random draws, the raw score is 70 plus twenty times a draw of
    [[0, 1)], with a single component; whatever the draws, the rounded
    [health_score] lies in the closed interval from 70 to 90 (rounding
    can reach 90) and the status is "Excellent". *)
Theorem fabricated_score_range (stamp : string) (rand : nat → Q)
    (best_frame : Frame) (best_face : bbox) :
  no_indicator (analyze (extract best_frame best_face)) →
  unit_draws rand →
  ∃ r, analyse_best extract analyze stamp rand best_frame best_face = Some r
       ∧ health_score r = round1 ((70 + rand 0%nat * 20) / Qmax 1 1)
       ∧ 70 <= health_score r ∧ health_score r <= 90
       ∧ health_status r = "Excellent"
       ∧ health_analysis r !! "facial_symmetry" = Some (VNum (0.8 + rand 1%nat * 0.15))
       ∧ health_analysis r !! "eyes_level_symmetry" = Some (VNum (0.85 + rand 2%nat * 0.1))
       ∧ health_analysis r !! "skin_texture" = Some (VNum (20 + rand 3%nat * 15)).
Proof.
  intros Hno Hrand. unfold analyse_best.
  rewrite (no_indicator_components _ Hno). simpl.
  set (h := analyze (extract best_frame best_face)) in *.
  assert (70 <= round1 ((70 + rand 0%nat * 20) / Qmax 1 1)
          ∧ round1 ((70 + rand 0%nat * 20) / Qmax 1 1) <= 90) as [Hlo Hhi].
  { change (Qmax 1 1) with 1.
    rewrite (round1_comp _ (70 + rand 0%nat * 20)) by field.
    destruct (Hrand 0%nat) as [H0 H1].
    assert (inject_Z 700 / 10 == 70) as E7 by reflexivity.
    assert (inject_Z 900 / 10 == 90) as E9 by reflexivity.
    destruct (round1_bounds 700 900 (70 + rand 0%nat * 20)) as [Ha Hb].
    - rewrite E7. lra.
    - rewrite E9. lra.
    - rewrite E7 in Ha. rewrite E9 in Hb. done. }
  unfold add_notes, recommend.
  destruct (h !! "skin_tone_note") eqn:Etone; destruct (h !! "texture_note") eqn:Enote;
    simplify_map_eq; simpl;
    (eexists; split; [reflexivity|]; simpl;
     split; [reflexivity|]; split; [done|]; split; [done|];
     split; [apply status_band_excellent; lra|];
     by simplify_map_eq).
Qed.

End FallbackFacts.

Lemma blind_no_indicator (f : nat) (b : CompleteHealthAnalyzer.bbox) :
  Spec.no_indicator (Examples.blind_analyze (Examples.blind_extract f b)).
Proof. intros key _. apply lookup_empty. Qed.

Lemma fabricated_score_range_witness :
  Spec.no_indicator (Examples.blind_analyze (Examples.blind_extract 1%nat (0, 0, 10, 10)%Z))
  ∧ Spec.unit_draws Examples.half
  ∧ ∃ r, CompleteHealthAnalyzer.analyse_best Examples.blind_extract Examples.blind_analyze
           "20250101_120003" Examples.half 1%nat (0, 0, 10, 10)%Z = Some r
         ∧ CompleteHealthAnalyzer.health_score r
           = round1 ((70 + Examples.half 0%nat * 20) / Qmax 1 1)
         ∧ 70 <= CompleteHealthAnalyzer.health_score r
         ∧ CompleteHealthAnalyzer.health_score r <= 90
         ∧ CompleteHealthAnalyzer.health_status r = "Excellent"
         ∧ CompleteHealthAnalyzer.health_analysis r !! "facial_symmetry"
           = Some (VNum (0.8 + Examples.half 1%nat * 0.15))
         ∧ CompleteHealthAnalyzer.health_analysis r !! "eyes_level_symmetry"
           = Some (VNum (0.85 + Examples.half 2%nat * 0.1))
         ∧ CompleteHealthAnalyzer.health_analysis r !! "skin_texture"
           = Some (VNum (20 + Examples.half 3%nat * 15)).
Proof.
  assert (Spec.unit_draws Examples.half) as Hd.
  { intros i. unfold Examples.half, Qle, Qlt. simpl. lia. }
  split; [apply blind_no_indicator|]. split; [exact Hd|].
  exact (fabricated_score_range Examples.blind_extract Examples.blind_analyze
           "20250101_120003" Examples.half 1%nat (0, 0, 10, 10)%Z
           (blind_no_indicator _ _) Hd).
Defined.

(** C10 (counterexample). With a first draw of 0.999 the raw score is
    89.98 and the rounded [health_score] is 90, outside [[70, 90)]. *)
Lemma fabricated_score_counterexample :
  Spec.no_indicator (Examples.blind_analyze (Examples.blind_extract 1%nat (0, 0, 10, 10)%Z))
  ∧ Spec.unit_draws Examples.high
  ∧ ∃ r, CompleteHealthAnalyzer.analyse_best Examples.blind_extract Examples.blind_analyze
           "20250101_120003" Examples.high 1%nat (0, 0, 10, 10)%Z = Some r
         ∧ CompleteHealthAnalyzer.health_score r == 90
         ∧ ¬ CompleteHealthAnalyzer.health_score r < 90.
Proof.
  split; [apply blind_no_indicator|]. split.
  { intros i. unfold Examples.high, Qle, Qlt. simpl. lia. }
  eexists. split; [vm_compute; reflexivity|]. simpl. split; [reflexivity|].
  unfold Qlt. simpl. lia.
Qed.

(** ** The aggregate score *)

Section ScoreFacts.
Import Spec.

















(** With symmetry 0.9 and mild fatigue as the only indicators, the score
    is the mean 8.495 of the two contributions, rounded to 8.5; counting
    the three absent indicators as zeros would give 3.4. *)
Example health_score_two_present :
  let health : gmap string value :=
    <["facial_symmetry" := VNum 0.9]> {["eye_fatigue" := VStr "Mild"]} in
  RealtimeFacialAnalyzer.overall_health_score
    <$> RealtimeFacialAnalyzer._calculate_health_score
          (RealtimeFacialAnalyzer.Tracking [health] RealtimeFacialAnalyzer.initial_trends
             0 "Analyzing...")
  = Some (inject_Z 85 / 10).
Proof. vm_compute. reflexivity. Qed.

End ScoreFacts.

(** ** The weight tables *)

Section WeightFacts.
Import Spec.
















End WeightFacts.

(** ** The trend classifier *)

Section TrendFacts.
Import Spec HealthAnalyzer.

Lemma Qltb_lt (x y : Q) : Qltb x y = true ↔ x < y.
Proof.
  unfold Qltb. destruct (Qle_bool y x) eqn:E; simpl.
  - apply Qle_bool_iff in E. split; [done|]. intros H. lra.
  - split; [|done]. intros _.
    destruct (Qlt_le_dec x y) as [?|Hle]; [done|].
    apply Qle_bool_iff in Hle. congruence.
Qed.

Lemma Qltb_ge (x y : Q) : Qltb x y = false ↔ y <= x.
Proof.
  unfold Qltb. destruct (Qle_bool y x) eqn:E; simpl.
  - apply Qle_bool_iff in E. done.
  - split; [done|]. intros H. apply Qle_bool_iff in H. congruence.
Qed.

(** A window of at least 10 samples splits into its first five, a middle
    part and its last five. *)
Lemma window_split {A} (window : list A) :
  (10 ≤ length window)%nat →
  window = take 5 window ++ drop 5 (take (length window - 5) window)
           ++ slice_last 5 window
  ∧ length (take 5 window) = 5%nat ∧ length (slice_last 5 window) = 5%nat.
Proof.
  intros Hlen. unfold slice_last. split; [|split].
  - rewrite <- (take_drop 5 window) at 1. f_equal.
    rewrite <- (take_drop (length window - 5) window) at 1.
    by rewrite drop_app_le by (rewrite length_take; lia).
  - rewrite length_take. lia.
  - rewrite length_drop. lia.
Qed.

(** The label of the eye-fatigue block is the class of the two-window
    comparison. *)
Lemma eye_fatigue_trend_mean_shift (window : list Q) :
  (10 ≤ length window)%nat →
  ∃ label c, eye_fatigue_trend window = Some label
             ∧ trend_of_label label = Some c ∧ mean_shift window c.
Proof.
  intros Hlen. unfold eye_fatigue_trend.
  assert ((10 <=? length window)%nat = true) as -> by by apply Nat.leb_le.
  destruct (window_split window Hlen) as (Hsplit & H5 & H5').
  set (d := mean (slice_last 5 window) - mean (take 5 window)).
  destruct (Qltb 0.2 d) eqn:Eup; [|destruct (Qltb d (-0.2)) eqn:Edown].
  - exists "Increasing (consider rest)", Increasing. split; [done|]. split; [done|].
    exists (take 5 window), (drop 5 (take (length window - 5) window)),
      (slice_last 5 window).
    repeat split; try done. by apply Qltb_lt.
  - exists "Decreasing (improving)", Decreasing. split; [done|]. split; [done|].
    exists (take 5 window), (drop 5 (take (length window - 5) window)),
      (slice_last 5 window).
    repeat split; try done. by apply Qltb_lt.
  - exists "Stable", Stable. split; [done|]. split; [done|].
    exists (take 5 window), (drop 5 (take (length window - 5) window)),
      (slice_last 5 window).
    apply Qltb_ge in Eup, Edown. repeat split; done.
Qed.

Lemma identical_window_stable (v : Q) : eye_fatigue_trend (replicate 10 v) = Some "Stable".
Proof.
  unfold eye_fatigue_trend. simpl.
  set (d := mean (slice_last 5 _) - mean _).
  assert (d == 0) as Hd by (unfold d, slice_last, mean, sum; simpl; field).
  assert (Qltb 0.2 d = false) as -> by (apply Qltb_ge; lra).
  assert (Qltb d (-0.2) = false) as -> by (apply Qltb_ge; lra).
  done.
Qed.

(** C4 (amended). For the eye-fatigue history, as soon as it holds 10
    samples, the trend classifier compares the mean of the most recent 5
    samples with the mean of the earliest 5 retained and labels the trend
    Increasing when the difference exceeds 0.2, Decreasing when it is
    below -0.2 and Stable otherwise; 10 identical values give Stable, 5
    values at 0.1 followed by 5 at 0.5 give Increasing and the reverse
    Decreasing. The facial-symmetry history of at least 10 samples is
    classified otherwise, on its standard deviation (Variable above 0.1,
    else Stable), and no other history gets a trend. *)
Theorem eye_fatigue_trend_classified (h : history) (trend_data : gmap string string) :
  _analyze_trends h = Some trend_data →
  (10 ≤ length (eye_fatigue h))%nat →
  (∃ label c, trend_data !! "eye_fatigue_trend" = Some label
              ∧ trend_of_label label = Some c ∧ mean_shift (eye_fatigue h) c)
  ∧ (∀ v, eye_fatigue_trend (replicate 10 v) = Some "Stable")
  ∧ eye_fatigue_trend Examples.rising = Some "Increasing (consider rest)"
  ∧ eye_fatigue_trend Examples.falling = Some "Decreasing (improving)"
  ∧ ((10 ≤ length (facial_symmetry h))%nat →
     ∃ nums, mapM as_num (facial_symmetry h) = Some nums
             ∧ trend_data !! "symmetry_stability"
               = Some (if Qltb 0.01 (variance nums) then "Variable" else "Stable"))
  ∧ (∀ key, key ≠ "eye_fatigue_trend" → key ≠ "symmetry_stability" →
            trend_data !! key = None).
Proof.
  intros Htd Hlen.
  destruct (eye_fatigue_trend_mean_shift _ Hlen) as (label & c & Hl & Hc & Hm).
  unfold _analyze_trends in Htd. rewrite Hl in Htd. simpl in Htd.
  unfold symmetry_stability in Htd.
  split; [|split; [|split; [|split; [|split]]]].
  - exists label, c. split; [|done].
    destruct (10 <=? length (facial_symmetry h))%nat; simpl in Htd.
    + destruct (mapM as_num (facial_symmetry h)); simpl in Htd; [|done].
      injection Htd as <-. by simplify_map_eq.
    + injection Htd as <-. by simplify_map_eq.
  - apply identical_window_stable.
  - vm_compute. reflexivity.
  - vm_compute. reflexivity.
  - intros Hs. apply Nat.leb_le in Hs. rewrite Hs in Htd. simpl in Htd.
    destruct (mapM as_num (facial_symmetry h)) as [nums|]; simpl in Htd; [|done].
    exists nums. split; [done|]. injection Htd as <-. by simplify_map_eq.
  - intros key Hk1 Hk2.
    destruct (10 <=? length (facial_symmetry h))%nat; simpl in Htd.
    + destruct (mapM as_num (facial_symmetry h)); simpl in Htd; [|done].
      injection Htd as <-. by simplify_map_eq.
    + injection Htd as <-. by simplify_map_eq.
Qed.

Lemma eye_fatigue_trend_classified_witness :
  let h := History [] Examples.rising [] [] in
  _analyze_trends h = Some {["eye_fatigue_trend" := "Increasing (consider rest)"]}
  ∧ (10 ≤ length (eye_fatigue h))%nat
  ∧ ∃ label c,
      ({["eye_fatigue_trend" := "Increasing (consider rest)"]} : gmap string string)
        !! "eye_fatigue_trend" = Some label
      ∧ trend_of_label label = Some c ∧ mean_shift (eye_fatigue h) c.
Proof.
  intros h.
  assert (_analyze_trends h = Some {["eye_fatigue_trend" := "Increasing (consider rest)"]})
    as H1 by (vm_compute; reflexivity).
  assert (10 ≤ length (eye_fatigue h))%nat as H2 by (simpl; lia).
  split; [exact H1|]. split; [exact H2|].
  exact (proj1 (eye_fatigue_trend_classified h _ H1 H2)).
Defined.

(** C4 (counterexample). A facial-symmetry history of 5 samples at 0.1
    followed by 5 at 0.5 holds 10 samples, and its two-window comparison
    is Increasing; the classifier only labels it "Variable", which is no
    class of the comparison. The same samples in the facial-fullness
    history get no label at all. *)
Lemma trend_every_metric_counterexample :
  let h := History (VNum <$> Examples.rising) [] [] [] in
  let h' := History [] [] (VNum <$> Examples.rising) [] in
  (10 ≤ length (facial_symmetry h))%nat
  ∧ mean_shift Examples.rising Increasing
  ∧ _analyze_trends h = Some {["symmetry_stability" := "Variable"]}
  ∧ trend_of_label "Variable" = None
  ∧ (10 ≤ length (facial_fullness h'))%nat
  ∧ _analyze_trends h' = Some ∅.
Proof.
  intros h h'. split; [simpl; lia|]. split.
  { exists (replicate 5 0.1), [], (replicate 5 0.5).
    split; [reflexivity|]. split; [reflexivity|]. split; [reflexivity|].
    vm_compute. reflexivity. }
  split; [vm_compute; reflexivity|]. split; [reflexivity|].
  split; [simpl; lia|]. vm_compute. reflexivity.
Qed.

End TrendFacts.
